(** * plot.C : legend-aware axis range, histogram retrieval and output name

    A shallow embedding of [src/plot.C].  The C++ type [double] is read as
    the real numbers [R] (no rounding), but for the results of [log10],
    which may be minus infinity or NaN and are followed as such through
    lines 254-256; [int] as [Z]; [size_t] as [N] with [npos = 2^64 - 1];
    [std::string] as [string].
    The ROOT classes the program talks to ([TH1], [TLegend], [TPad],
    [TFile]) are records holding exactly the attributes the program reads
    or writes. *)

From Stdlib Require Import Reals Lra Lia ZArith NArith List String Ascii Bool.
From Stdlib Require Import Permutation.
Import ListNotations.

Open Scope R_scope.

(** ** The C++ library functions the program calls *)

Module Std.

(** [a > b] and [a < b] on [double], as booleans. *)
Definition gtb (a b : R) : bool := if Rlt_dec b a then true else false.
Definition ltb (a b : R) : bool := if Rlt_dec a b then true else false.

(** [std::max(a, b)] is [(a < b) ? b : a]. *)
Definition max (a b : R) : R := if ltb a b then b else a.

(** [std::min(a, b)] is [(b < a) ? b : a]. *)
Definition min (a b : R) : R := if ltb b a then b else a.

(** [x] truncated toward zero fits a 32-bit [int]. *)
Definition fits_int (x : R) : Prop := -2147483649 < x < 2147483648.

(** [static_cast<int>(x)] truncates toward zero.  The conversion is defined
    in C++ exactly when [fits_int x]; only there is the integer below the
    value of the cast, and every statement about the value of a cast
    carries [fits_int] as a hypothesis or has it from its other
    hypotheses. *)
Definition static_cast_int (x : R) : Z :=
  if Rle_dec 0 x then Int_part x else (- Int_part (- x))%Z.

(** The finite value of [log10] at a positive argument, and [pow] for a
    positive base, or for the exponent 0, where it is 1 for every base. *)
Definition log10 (x : R) : R := Rlog 10 x.
Definition pow (x y : R) : R := Rpower x y.

(** A [double] that may not be finite: what [log10] returns, and what the
    arithmetic on its results gives. *)
Inductive xdouble : Type :=
| Fin (x : R)
| PInf
| NInf
| NaN.

(** [log10] of <cmath>: minus infinity at 0, NaN below. *)
Definition xlog10 (x : R) : xdouble :=
  if ltb 0 x then Fin (log10 x) else if ltb x 0 then NaN else NInf.

Definition xopp (a : xdouble) : xdouble :=
  match a with
  | Fin x => Fin (- x)
  | PInf => NInf
  | NInf => PInf
  | NaN => NaN
  end.

(** [a + b]. *)
Definition xadd (a b : xdouble) : xdouble :=
  match a, b with
  | NaN, _ | _, NaN => NaN
  | Fin x, Fin y => Fin (x + y)
  | PInf, NInf | NInf, PInf => NaN
  | PInf, _ | _, PInf => PInf
  | NInf, _ | _, NInf => NInf
  end.

(** [a - b]. *)
Definition xsub (a b : xdouble) : xdouble := xadd a (xopp b).

(** An infinity times, or over, a finite [y]: its sign changes when [y] is
    negative. *)
Definition xinf_signed (a : xdouble) (y : R) : xdouble :=
  if ltb y 0 then xopp a else a.

(** [a * b]: an infinity times zero is NaN. *)
Definition xmul (a b : xdouble) : xdouble :=
  match a, b with
  | NaN, _ | _, NaN => NaN
  | Fin x, Fin y => Fin (x * y)
  | PInf, PInf | NInf, NInf => PInf
  | PInf, NInf | NInf, PInf => NInf
  | Fin x, _ => if ltb x 0 then xopp b else if ltb 0 x then b else NaN
  | _, Fin y => if ltb y 0 then xopp a else if ltb 0 y then a else NaN
  end.

(** [a / b].  A quotient of two finite values is the real quotient, here
    as everywhere in this file (a zero divisor is outside this reading);
    an infinity keeps its sign over a divisor that is not negative, the
    divisors of the program being differences, whose zero is +0. *)
Definition xdiv (a b : xdouble) : xdouble :=
  match a, b with
  | NaN, _ | _, NaN => NaN
  | Fin x, Fin y => Fin (x / y)
  | Fin _, _ => Fin 0
  | _, Fin y => xinf_signed a y
  | _, _ => NaN
  end.

(** [a > b]: false as soon as one side is NaN. *)
Definition xgt (a b : xdouble) : bool :=
  match a, b with
  | Fin x, Fin y => gtb x y
  | PInf, Fin _ | PInf, NInf | Fin _, NInf => true
  | _, _ => false
  end.

End Std.

Infix ">?" := Std.gtb (at level 70, no associativity) : R_scope.
Infix "<?" := Std.ltb (at level 70, no associativity) : R_scope.

(** ** The ROOT objects *)

(** A one-dimensional histogram: bins [1 .. GetNbinsX], each with a content
    and an error, and the drawing attributes [retrieveHistogram] sets. *)
Record TH1 : Type := mkTH1 {
  bins        : list (R * R);
  LineColor   : Z;
  LineWidth   : Z;
  MarkerColor : Z;
  MarkerStyle : Z
}.

Definition GetNbinsX (h : TH1) : Z := Z.of_nat (List.length (bins h)).

(** [TLegend(x1, y1, x2, y2)]: [Y1] is the lower edge, [Y2] the upper. *)
Record TLegend : Type := mkTLegend { X1 : R; Y1 : R; X2 : R; Y2 : R }.

Record TPad : Type := mkTPad {
  LeftMargin   : R;
  RightMargin  : R;
  TopMargin    : R;
  BottomMargin : R;
  Logy         : bool
}.

(** ** smartMax *)

(** The three locals of [smartMax]: [min], [max], [pThreshMax]. *)
Record locals : Type := mkLocals { l_min : R; l_max : R; l_pThreshMax : R }.

(** The three accumulators passed by reference:
    [gmin], [gmax], [gpThreshMax]. *)
Record range : Type := mkRange { gmin : R; gmax : R; gpThreshMax : R }.

Definition init_locals : locals := mkLocals 9e99 (-9e99) (-9e99).

(** Line 22: the quotient, and its conversion to [int]. *)
Definition threshold_arg (h : TH1) (l : TLegend) (p : TPad) : R :=
  IZR (GetNbinsX h) * (X1 l - LeftMargin p)
  / ((1 - RightMargin p) - LeftMargin p).

Definition threshold (h : TH1) (l : TLegend) (p : TPad) : Z :=
  Std.static_cast_int (threshold_arg h l p).

(** Lines 26-28: the value of one bin. *)
Definition bin_value (error : bool) (b : R * R) : R :=
  if error then fst b + snd b else fst b.

(** Lines 29-31: the body of the loop for bin [i]. *)
Definition scan_bin (error : bool) (thr i : Z) (b : R * R) (s : locals)
  : locals :=
  let bin := bin_value error b in
  let s1 :=
    if bin >? l_max s then mkLocals (l_min s) bin (l_pThreshMax s)
    else if (bin >? 1e-10) && (bin <? l_min s)
         then mkLocals bin (l_max s) (l_pThreshMax s)
         else s in
  if (thr <=? i)%Z && (bin >? l_pThreshMax s1)
  then mkLocals (l_min s1) (l_max s1) bin
  else s1.

(** Line 31 alone: what one bin does to [pThreshMax]. *)
Definition zone_step (thr i : Z) (bin p : R) : R :=
  if (thr <=? i)%Z && (bin >? p) then bin else p.

(** Lines 24-32: the loop, from bin [i] on. *)
Fixpoint scan_bins (error : bool) (thr i : Z) (bs : list (R * R))
  (s : locals) : locals :=
  match bs with
  | [] => s
  | b :: bs' => scan_bins error thr (i + 1) bs' (scan_bin error thr i b s)
  end.

Definition scan (h : TH1) (l : TLegend) (p : TPad) (error : bool) : locals :=
  scan_bins error (threshold h l p) 1 (bins h) init_locals.

(** Lines 34-36: the merge into the accumulators. *)
Definition merge (g : range) (s : locals) : range :=
  let gpThreshMax' := Std.max (gpThreshMax g) (l_pThreshMax s) in
  let gmax' := Std.max (gmax g) (l_max s) in
  let gmin' := Std.min (gmin g) (l_min s) in
  mkRange gmin' gmax' gpThreshMax'.

Definition smartMax (h : TH1) (l : TLegend) (p : TPad) (g : range)
  (error : bool) : range :=
  let isLog := Logy p in
  merge g (scan h l p error).

(** The minimum as the specification words it: the smallest value above
    the epsilon, [9e99] when there is none. *)
Definition spec_accumulate_min (vs : list R) : R :=
  fold_right (fun v m => if (v >? 1e-10) && (v <? m) then v else m) 9e99 vs.

(** One call of [smartMax] and a sequence of calls on one accumulator. *)
Record call : Type := mkCall {
  c_hist : TH1; c_leg : TLegend; c_pad : TPad; c_error : bool
}.

Definition smartMax_call (g : range) (c : call) : range :=
  smartMax (c_hist c) (c_leg c) (c_pad c) g (c_error c).

Definition smartMax_calls (g : range) (cs : list call) : range :=
  fold_left smartMax_call cs g.

(** Lines 176-178 and 206, 219, 231 of [Plotter::plot]: the accumulators
    start at [0.0]; the data histogram is scanned with its errors, the
    summed background and every signal without. *)
Definition plot_init : range := mkRange 0 0 0.

Definition plot_calls (data hbgSum : TH1) (sigs : list TH1)
  (leg : TLegend) (pad : TPad) : list call :=
  mkCall data leg pad true :: mkCall hbgSum leg pad false
  :: map (fun h => mkCall h leg pad false) sigs.

Definition plot_range (data hbgSum : TH1) (sigs : list TH1)
  (leg : TLegend) (pad : TPad) : range :=
  smartMax_calls plot_init (plot_calls data hbgSum sigs leg pad).

(** A histogram given by its bins, with default drawing attributes. *)
Definition hist_of (bs : list (R * R)) : TH1 := mkTH1 bs 0 0 0 0.

(** ** The vertical axis range (lines 251-269 of [Plotter::plot]) *)

(** [dummy.setupPad(left, right, top, bottom)] on the current pad. *)
Definition setupPad (p : TPad) (left right top bottom : R) : TPad :=
  mkTPad left right top bottom (Logy p).

(** Line 168: the legend of every plot. *)
Definition plot_legend : TLegend := mkTLegend 0.50 0.56 0.89 0.88.

(** Line 243: the margins of the upper pad when the range is chosen. *)
Definition plot_pad (p : TPad) : TPad := setupPad p 0.12 0.06 0.08 0.0.

(** The upper pad when the range is chosen: its margins are those of line
    243 whatever they were before, and the log scale is switched on only
    afterwards (line 277). *)
Definition pad1 : TPad := plot_pad (mkTPad 0 0 0 0 false).

(** The fraction of the frame height below the legend's [Y1]. *)
Definition legFrac (leg : TLegend) (pad : TPad) (x : R) : R :=
  x * (Y1 leg - BottomMargin pad)
  / ((1 - TopMargin pad) - BottomMargin pad).

(** Line 253. *)
Definition log_locMin (min : R) : R :=
  Std.min 0.2 (Std.max 0.2 (0.05 * min)).

(** [legFrac] of a value that may not be finite. *)
Definition xlegFrac (leg : TLegend) (pad : TPad) (x : Std.xdouble)
  : Std.xdouble :=
  Std.xdiv (Std.xmul x (Std.Fin (Y1 leg - BottomMargin pad)))
           (Std.Fin ((1 - TopMargin pad) - BottomMargin pad)).

(** Lines 254-255.  [log10(3*max)] is minus infinity for [max = 0] and NaN
    below, and so may [legMin] not be finite. *)
Definition log_legMin (leg : TLegend) (pad : TPad) (min max : R)
  : Std.xdouble :=
  let locMin := log_locMin min in
  let legSpan :=
    xlegFrac leg pad
      (Std.xsub (Std.xlog10 (3 * max)) (Std.xlog10 locMin)) in
  Std.xadd legSpan (Std.xlog10 locMin).

(** [legMin] where it is finite, for [max > 0]. *)
Definition log_legMin_real (leg : TLegend) (pad : TPad) (max : R) : R :=
  legFrac leg pad (Std.log10 (3 * max) - Std.log10 0.2) + Std.log10 0.2.

(** Line 256: the test that triggers the rescale of [max]. *)
Definition log_rescales (leg : TLegend) (pad : TPad) (g : range) : bool :=
  Std.xgt (Std.xlog10 (gpThreshMax g))
          (log_legMin leg pad (gmin g) (gmax g)).

(** Line 266. *)
Definition lin_legMin (leg : TLegend) (pad : TPad) (max : R) : R :=
  let locMin := 0.0 in
  legFrac leg pad (1.2 * max - locMin).

(** Line 267: the test that triggers the rescale of [max]. *)
Definition lin_rescales (leg : TLegend) (pad : TPad) (g : range) : bool :=
  gpThreshMax g >? lin_legMin leg pad (gmax g).

(** The two arguments of [GetYaxis()->SetRangeUser]. *)
Definition y_range (isLogY : bool) (leg : TLegend) (pad : TPad) (g : range)
  : R * R :=
  let min := gmin g in
  let max := gmax g in
  let lmax := gpThreshMax g in
  if isLogY then
    let locMin := log_locMin min in
    let legMin := log_legMin leg pad min max in
    let max' :=
      if Std.xgt (Std.xlog10 lmax) legMin then
        (* [log10(lmax)] is finite here, and [legMin] finite or minus
           infinity: nothing exceeds plus infinity or NaN *)
        match legMin with
        | Std.Fin m =>
            let scale :=
              (Std.log10 lmax - Std.log10 locMin)
              / (m - Std.log10 locMin) in
            Std.pow (max / locMin) scale * locMin
        | _ =>
            (* a finite value over minus infinity is a zero, and
               [pow(x, 0)] is 1 *)
            Std.pow (max / locMin) 0 * locMin
        end
      else max in
    (locMin, 10 * max')
  else
    let locMin := 0.0 in
    let legMin := lin_legMin leg pad max in
    let max' :=
      if lmax >? legMin
      then max * ((lmax - locMin) / (legMin - locMin))
      else max in
    (0.0, max' * 1.3).

(** The linear branch as the specification words it, with the legend's
    upper edge [legendTop] where the program reads [Y1]. *)
Definition spec_lin_range (legendTop top bottom max zoneMax : R) : R * R :=
  let legendMin := 1.2 * max * (legendTop - bottom) / ((1 - top) - bottom) in
  let max' := if zoneMax >? legendMin then max * (zoneMax / legendMin)
              else max in
  (0, 1.3 * max').

(** The log branch as the specification words it, again with the legend's
    upper edge. *)
Definition spec_log_rescales (legendTop top bottom max zoneMax : R) : bool :=
  let floor := 0.2 in
  let legendSpan :=
    (Std.log10 (3 * max) - Std.log10 floor) * (legendTop - bottom)
    / ((1 - top) - bottom) in
  Std.log10 zoneMax >? legendSpan + Std.log10 floor.

(** ** histInfo::retrieveHistogram (lines 48-83) *)

Open Scope string_scope.

Record histInfo : Type := mkHistInfo {
  legEntry    : string;
  histFile    : string;
  histName    : string;
  drawOptions : string;
  color       : Z;
  rebin       : Z;
  h           : option TH1
}.

Definition set_h (hi : histInfo) (o : option TH1) : histInfo :=
  mkHistInfo (legEntry hi) (histFile hi) (histName hi) (drawOptions hi)
             (color hi) (rebin hi) o.

(** A ROOT file, as far as [Get] is concerned: the object stored under a
    name, if any. *)
Definition TFile : Type := string -> option TH1.

Definition dquote : string := String "034"%char EmptyString.
Definition newline : string := String "010"%char EmptyString.

(** The two [printf] lines. *)
Definition msg_no_file (file : string) : string :=
  "File " ++ dquote ++ file ++ dquote ++ " could not be opened!!!" ++ newline.

Definition msg_no_hist (name file : string) : string :=
  "Histogram " ++ dquote ++ name ++ dquote ++ " could not be found in file "
  ++ dquote ++ file ++ dquote ++ "!!!" ++ newline.

(** Lines 76-79. *)
Definition set_style (c : Z) (t : TH1) : TH1 :=
  mkTH1 (bins t) c 3 c 20.

Section RetrieveHistogram.

(** [TFile::Open]: the file at a path, or a null pointer. *)
Variable TFile_Open : string -> option TFile.

(** [TH1::Rebin(ngroup)]. *)
Variable TH1_Rebin : Z -> TH1 -> TH1.

(** The method, as a function of the object and of the text printed so
    far; it gives the object and the text afterwards. *)
Definition retrieveHistogram (hi : histInfo) (out : list string)
  : histInfo * list string :=
  match TFile_Open (histFile hi) with
  | None =>
      (set_h hi None, (out ++ [msg_no_file (histFile hi)])%list)
  | Some f =>
      match f (histName hi) with
      | None =>
          (set_h hi None,
           (out ++ [msg_no_hist (histName hi) (histFile hi)])%list)
      | Some t =>
          let t1 := set_style (color hi) t in
          let t2 := if (0 <? rebin hi)%Z then TH1_Rebin (rebin hi) t1
                    else t1 in
          (set_h hi (Some t2), out)
      end
  end.

End RetrieveHistogram.

(** ** The name of the image file (lines 370-377 of [Plotter::plot]) *)

(** What running a piece of the program gives: a value, undefined
    behaviour, or no answer within the steps allowed. *)
Inductive outcome (A : Type) : Type :=
| Returns (a : A)
| Undefined
| OutOfFuel.

Arguments Returns {A} a.
Arguments Undefined {A}.
Arguments OutOfFuel {A}.

Definition npos : N := 18446744073709551615.
Definition size_t_add (a b : N) : N := ((a + b) mod 2 ^ 64)%N.

(** The first index at or after [from] that holds [c]. *)
Fixpoint find_from (s : string) (c : ascii) (from : N) : option N :=
  match s with
  | EmptyString => None
  | String a s' =>
      if (from =? 0)%N && Ascii.eqb a c then Some 0%N
      else option_map N.succ (find_from s' c (N.pred from))
  end.

(** [s.find(c, pos)], with [npos] for no match. *)
Definition find (s : string) (c : ascii) (pos : N) : N :=
  match find_from s c pos with
  | Some i => i
  | None => npos
  end.

(** [s[pos] = c]; writing at or past the end is undefined. *)
Fixpoint set_at (s : string) (pos : N) (c : ascii) : option string :=
  match s with
  | EmptyString => None
  | String a s' =>
      if (pos =? 0)%N then Some (String c s')
      else option_map (String a) (set_at s' (N.pred pos) c)
  end.

(** Lines 372-376: the do-while loop, entered with [pos]. *)
Fixpoint replace_loop (fuel : nat) (name : string) (pos : N)
  : outcome string :=
  match fuel with
  | O => OutOfFuel
  | S fuel' =>
      match set_at name pos "_"%char with
      | None => Undefined
      | Some name' =>
          let pos' := find name' "/"%char (size_t_add pos 1) in
          if (pos' =? npos)%N then Returns name'
          else replace_loop fuel' name' pos'
      end
  end.

(** Lines 370-377: the argument of [c->Print]. *)
Definition output_name (histName : string) : outcome string :=
  let name := histName in
  let pos := find name "/"%char 0 in
  match replace_loop (S (String.length name)) name pos with
  | Returns name' => Returns (name' ++ ".png")
  | Undefined => Undefined
  | OutOfFuel => OutOfFuel
  end.

(** Every ['/'] replaced by ['_']. *)
Fixpoint replace_slashes (s : string) : string :=
  match s with
  | EmptyString => EmptyString
  | String a s' =>
      String (if Ascii.eqb a "/"%char then "_"%char else a)
             (replace_slashes s')
  end.

Fixpoint has_slash (s : string) : bool :=
  match s with
  | EmptyString => false
  | String a s' => Ascii.eqb a "/"%char || has_slash s'
  end.

Close Scope string_scope.

(** ** The histograms of one plot (lines 185-232 of [Plotter::plot]) *)

(** Sequencing of steps that may be undefined. *)
Definition bind {A B : Type} (o : outcome A) (k : A -> outcome B)
  : outcome B :=
  match o with
  | Returns a => k a
  | Undefined => Undefined
  | OutOfFuel => OutOfFuel
  end.

(** [entry.histName = histName; entry.rebin = rebin;] *)
Definition set_request (hi : histInfo) (name : string) (rb : Z) : histInfo :=
  mkHistInfo (legEntry hi) (histFile hi) name (drawOptions hi) (color hi) rb
             (h hi).

Definition is_null (hi : histInfo) : bool :=
  match h hi with Some _ => false | None => true end.

Section PlotHistograms.

Variable TFile_Open : string -> option TFile.
Variable TH1_Rebin : Z -> TH1 -> TH1.

(** [hbgSum->Add(p)] for a pointer [p], null or not. *)
Variable TH1_Add : TH1 -> option TH1 -> TH1.

(** Lines 185-195: the entries are visited from the last to the first; the
    sum starts as a clone of the first histogram visited, through a pointer
    that must not be null.  The result is the entries as the loop leaves
    them, the sum, and the text printed. *)
Fixpoint bg_loop (name : string) (rb : Z) (entries : list histInfo)
  (out : list string) : outcome (list histInfo * option TH1 * list string) :=
  match entries with
  | [] => Returns ([], None, out)
  | e :: rest =>
      bind (bg_loop name rb rest out) (fun st =>
        let '(rest', hbgSum, out1) := st in
        let r := retrieveHistogram TFile_Open TH1_Rebin
                   (set_request e name rb) out1 in
        match hbgSum with
        | None =>
            match h (fst r) with
            | None => Undefined
            | Some t => Returns (fst r :: rest', Some t, snd r)
            end
        | Some s =>
            Returns (fst r :: rest', Some (TH1_Add s (h (fst r))), snd r)
        end)
  end.

(** Lines 222-232: every signal is retrieved and scanned at once. *)
Fixpoint sig_loop (name : string) (rb : Z) (leg : TLegend) (pad : TPad)
  (entries : list histInfo) (g : range) (out : list string)
  : outcome (range * list string) :=
  match entries with
  | [] => Returns (g, out)
  | e :: rest =>
      let r := retrieveHistogram TFile_Open TH1_Rebin
                 (set_request e name rb) out in
      match h (fst r) with
      | None => Undefined
      | Some t => sig_loop name rb leg pad rest (smartMax t leg pad g false)
                    (snd r)
      end
  end.

(** Lines 176-232, as far as the three accumulators go: what [plot] has in
    [min], [max] and [lmax] when it reaches line 250, and the text printed
    until then.  [pad] is the current pad, whose margins line 243 has not
    set yet.  The data histogram is used through its pointer at line 204,
    every background histogram at line 212, the sum at line 219 and every
    signal at line 231. *)
Definition plot_accumulate (name : string) (rb : Z) (pad : TPad)
  (data_ : histInfo) (bgEntries_ sigEntries_ : list histInfo)
  (out : list string) : outcome (range * list string) :=
  let leg := plot_legend in
  bind (bg_loop name rb bgEntries_ out) (fun st =>
    let '(bg', hbgSum, out1) := st in
    let d := retrieveHistogram TFile_Open TH1_Rebin
               (set_request data_ name rb) out1 in
    match h (fst d) with
    | None => Undefined
    | Some hd =>
        let g1 := smartMax hd leg pad plot_init true in
        if existsb is_null bg' then Undefined
        else
          match hbgSum with
          | None => Undefined
          | Some hs =>
              let g2 := smartMax hs leg pad g1 false in
              sig_loop name rb leg pad sigEntries_ g2 (snd d)
          end
    end).

(** The file of an entry opens and holds a histogram under [name]. *)
Definition available (name : string) (e : histInfo) : bool :=
  match TFile_Open (histFile e) with
  | Some f => match f name with Some _ => true | None => false end
  | None => false
  end.

End PlotHistograms.

(** ** The calls of [main] (lines 424-448) *)

Open Scope string_scope.

Definition controlRegions : list string :=
  ["ttbar"; "ttbarNob"; "photon"; "dilepton"; "ttbarLep"; "QCD"; "QCDb"].

(** What [main] appends to the name of a region, call after call. *)
Definition region_plots : list string :=
  ["/HT"; "/MET"; "/nJets"; "/nBJets"; "/nTops"; "/fakerateHT2";
   "/fakerateNj2"; "/fakerateNb2"; "/randomTopPt"; "/randomTopCandPt";
   "/nVertices"].

(** The first argument of every call of [plot], in the order of the calls. *)
Definition main_histNames : list string :=
  flat_map (fun cr => map (fun p => cr ++ p) region_plots) controlRegions.

(** No two strings of a list are equal. *)
Fixpoint distinct (l : list string) : bool :=
  match l with
  | [] => true
  | x :: l' => negb (existsb (String.eqb x) l') && distinct l'
  end.

Close Scope string_scope.

(** * Properties *)

(** ** Comparisons, [std::max] and [std::min] *)

Lemma gtb_spec (a b : R) : reflect (b < a) (a >? b).
Proof. unfold Std.gtb. destruct (Rlt_dec b a); constructor; assumption. Qed.

Lemma ltb_spec (a b : R) : reflect (a < b) (a <? b).
Proof. unfold Std.ltb. destruct (Rlt_dec a b); constructor; assumption. Qed.

Lemma gtb_true (a b : R) : b < a -> (a >? b) = true.
Proof. intros; destruct (gtb_spec a b); [reflexivity | contradiction]. Qed.

Lemma gtb_false (a b : R) : a <= b -> (a >? b) = false.
Proof. intros; destruct (gtb_spec a b); [lra | reflexivity]. Qed.

Lemma ltb_true (a b : R) : a < b -> (a <? b) = true.
Proof. intros; destruct (ltb_spec a b); [reflexivity | contradiction]. Qed.

Lemma ltb_false (a b : R) : b <= a -> (a <? b) = false.
Proof. intros; destruct (ltb_spec a b); [lra | reflexivity]. Qed.

(** Decide every comparison of the goal whose outcome [lra] can settle. *)
Ltac cmp_eval :=
  repeat match goal with
  | |- context [Std.gtb ?a ?b] =>
      first [ rewrite (gtb_true a b) by lra
            | rewrite (gtb_false a b) by lra ]
  | |- context [Std.ltb ?a ?b] =>
      first [ rewrite (ltb_true a b) by lra
            | rewrite (ltb_false a b) by lra ]
  end.

Lemma std_max_Rmax (a b : R) : Std.max a b = Rmax a b.
Proof.
  unfold Std.max. destruct (ltb_spec a b).
  - symmetry. apply Rmax_right. lra.
  - symmetry. apply Rmax_left. lra.
Qed.

Lemma std_min_Rmin (a b : R) : Std.min a b = Rmin a b.
Proof.
  unfold Std.min. destruct (ltb_spec b a).
  - symmetry. apply Rmin_right. lra.
  - symmetry. apply Rmin_left. lra.
Qed.

Lemma std_max_bounds (a b : R) :
  a <= Std.max a b /\ b <= Std.max a b
  /\ (Std.max a b = a \/ Std.max a b = b).
Proof. unfold Std.max. destruct (ltb_spec a b); repeat split; auto; lra. Qed.

Lemma std_min_bounds (a b : R) :
  Std.min a b <= a /\ Std.min a b <= b
  /\ (Std.min a b = a \/ Std.min a b = b).
Proof. unfold Std.min. destruct (ltb_spec b a); repeat split; auto; lra. Qed.

(** ** The loop of [smartMax] *)

Section Loop.

Variable error : bool.
Variable thr : Z.

Lemma scan_bin_pThreshMax i b s :
  l_pThreshMax (scan_bin error thr i b s)
  = zone_step thr i (bin_value error b) (l_pThreshMax s).
Proof.
  unfold scan_bin, zone_step.
  destruct (bin_value error b >? l_max s);
    [| destruct ((bin_value error b >? 1e-10) && (bin_value error b <? l_min s))];
    cbn [l_pThreshMax l_min l_max];
    destruct ((thr <=? i)%Z && (bin_value error b >? l_pThreshMax s));
    reflexivity.
Qed.

(** So does the maximum. *)
Lemma scan_bin_max i b s :
  l_max (scan_bin error thr i b s) = Std.max (l_max s) (bin_value error b).
Proof.
  unfold scan_bin, Std.max.
  destruct (gtb_spec (bin_value error b) (l_max s)) as [Hgt | Hle].
  - rewrite (ltb_true (l_max s) (bin_value error b)) by assumption.
    cbn [l_pThreshMax l_min l_max].
    destruct ((thr <=? i)%Z && (bin_value error b >? l_pThreshMax s));
      reflexivity.
  - rewrite (ltb_false (l_max s) (bin_value error b)) by lra.
    destruct ((bin_value error b >? 1e-10) && (bin_value error b <? l_min s));
      cbn [l_pThreshMax l_min l_max];
      match goal with |- context [if ?c then _ else _] => destruct c end;
      reflexivity.
Qed.

(** The minimum moves only in the [else] branch of line 30. *)
Lemma scan_bin_min i b s :
  l_min (scan_bin error thr i b s)
  = if bin_value error b >? l_max s then l_min s
    else if (bin_value error b >? 1e-10) && (bin_value error b <? l_min s)
         then bin_value error b else l_min s.
Proof.
  unfold scan_bin.
  destruct (bin_value error b >? l_max s);
    [| destruct ((bin_value error b >? 1e-10) && (bin_value error b <? l_min s))];
    cbn [l_pThreshMax l_min l_max];
    match goal with |- context [if ?c then _ else _] => destruct c end;
    reflexivity.
Qed.

Lemma scan_bins_app i bs1 bs2 s :
  scan_bins error thr i (bs1 ++ bs2) s
  = scan_bins error thr (i + Z.of_nat (List.length bs1)) bs2
      (scan_bins error thr i bs1 s).
Proof.
  revert i s. induction bs1 as [| b bs1 IH]; intros i s.
  - cbn [app scan_bins List.length]. f_equal. cbn. lia.
  - cbn [app scan_bins List.length]. rewrite IH. f_equal. lia.
Qed.

(** Every scanned value is below the maximum, which never falls. *)
Lemma scan_bins_max_ge bs : forall i s,
  l_max s <= l_max (scan_bins error thr i bs s)
  /\ (forall b, In b bs ->
        bin_value error b <= l_max (scan_bins error thr i bs s)).
Proof.
  induction bs as [| b bs IH]; intros i s; cbn [scan_bins].
  - split; [lra | intros b []].
  - destruct (IH (i + 1)%Z (scan_bin error thr i b s)) as [Hmono Hall].
    rewrite scan_bin_max in Hmono.
    destruct (std_max_bounds (l_max s) (bin_value error b)) as (Ha & Hb & _).
    split; [lra |].
    intros b' [<- | Hin]; [lra | apply Hall; assumption].
Qed.

(** The maximum is the start value or one of the scanned values. *)
Lemma scan_bins_max_in bs : forall i s,
  l_max (scan_bins error thr i bs s) = l_max s
  \/ exists b, In b bs
       /\ l_max (scan_bins error thr i bs s) = bin_value error b.
Proof.
  induction bs as [| b bs IH]; intros i s; cbn [scan_bins].
  - left; reflexivity.
  - destruct (IH (i + 1)%Z (scan_bin error thr i b s)) as [Heq | (b' & Hin & Heq)].
    + rewrite Heq, scan_bin_max.
      destruct (std_max_bounds (l_max s) (bin_value error b)) as (_ & _ & [H | H]).
      * left; assumption.
      * right; exists b; split; [left; reflexivity | assumption].
    + right; exists b'; split; [right; assumption | assumption].
Qed.

(** The zone maximum never exceeds the maximum. *)
Lemma scan_bins_zone_le_max bs : forall i s,
  l_pThreshMax s <= l_max s ->
  l_pThreshMax (scan_bins error thr i bs s)
  <= l_max (scan_bins error thr i bs s).
Proof.
  induction bs as [| b bs IH]; intros i s Hs; cbn [scan_bins].
  - assumption.
  - apply IH. rewrite scan_bin_pThreshMax, scan_bin_max.
    unfold zone_step.
    destruct (std_max_bounds (l_max s) (bin_value error b)) as (Ha & Hb & _).
    destruct ((thr <=? i)%Z && (bin_value error b >? l_pThreshMax s)); lra.
Qed.

(** The minimum never rises, and it is the start value or a scanned value
    above the epsilon. *)
Lemma scan_bins_min bs : forall i s,
  l_min (scan_bins error thr i bs s) <= l_min s
  /\ (l_min (scan_bins error thr i bs s) = l_min s
      \/ exists b, In b bs
           /\ l_min (scan_bins error thr i bs s) = bin_value error b
           /\ 1e-10 < bin_value error b).
Proof.
  induction bs as [| b bs IH]; intros i s; cbn [scan_bins].
  - split; [lra | left; reflexivity].
  - destruct (IH (i + 1)%Z (scan_bin error thr i b s)) as [Hle Hin].
    rewrite scan_bin_min in Hle, Hin.
    destruct (bin_value error b >? l_max s).
    + split; [assumption |].
      destruct Hin as [H | (b' & H1 & H2)]; [left; assumption |].
      right; exists b'; split; [right; assumption | assumption].
    + destruct (gtb_spec (bin_value error b) 1e-10) as [Heps | Heps];
        destruct (ltb_spec (bin_value error b) (l_min s)) as [Hlt | Hlt];
        cbn [andb] in Hle, Hin.
      * split; [lra |].
        destruct Hin as [H | (b' & H1 & H2)].
        -- right; exists b; repeat split; [left; reflexivity | assumption | lra].
        -- right; exists b'; split; [right; assumption | assumption].
      * split; [assumption |].
        destruct Hin as [H | (b' & H1 & H2)]; [left; assumption |].
        right; exists b'; split; [right; assumption | assumption].
      * split; [assumption |].
        destruct Hin as [H | (b' & H1 & H2)]; [left; assumption |].
        right; exists b'; split; [right; assumption | assumption].
      * split; [assumption |].
        destruct Hin as [H | (b' & H1 & H2)]; [left; assumption |].
        right; exists b'; split; [right; assumption | assumption].
Qed.

(** Bins below the threshold leave the zone maximum alone. *)
Lemma scan_bins_zone_skip bs : forall i s,
  (i + Z.of_nat (List.length bs) <= thr)%Z ->
  l_pThreshMax (scan_bins error thr i bs s) = l_pThreshMax s.
Proof.
  induction bs as [| b bs IH]; intros i s Hthr; cbn [scan_bins].
  - reflexivity.
  - cbn [List.length] in Hthr. rewrite IH by lia.
    rewrite scan_bin_pThreshMax. unfold zone_step.
    replace (thr <=? i)%Z with false by (symmetry; apply Z.leb_gt; lia).
    reflexivity.
Qed.

(** With every index at or past the threshold the zone maximum follows the
    maximum. *)
Lemma scan_bins_zone_all bs : forall i s,
  (thr <= i)%Z -> l_pThreshMax s = l_max s ->
  l_pThreshMax (scan_bins error thr i bs s)
  = l_max (scan_bins error thr i bs s).
Proof.
  induction bs as [| b bs IH]; intros i s Hthr Hs; cbn [scan_bins].
  - assumption.
  - apply IH; [lia |].
    rewrite scan_bin_pThreshMax, scan_bin_max. unfold zone_step, Std.max.
    replace (thr <=? i)%Z with true by (symmetry; apply Z.leb_le; lia).
    rewrite Hs. cbn [andb]. unfold Std.gtb, Std.ltb.
    destruct (Rlt_dec (l_max s) (bin_value error b)); reflexivity.
Qed.

End Loop.

(** With some value above [-9e99], the maximum is the largest value. *)
Lemma scan_max_largest h l p error :
  (exists b, In b (bins h) /\ -9e99 < bin_value error b) ->
  (exists b, In b (bins h) /\ l_max (scan h l p error) = bin_value error b)
  /\ (forall b, In b (bins h) ->
        bin_value error b <= l_max (scan h l p error)).
Proof.
  intros (b0 & Hin0 & Hb0). unfold scan.
  destruct (scan_bins_max_ge error (threshold h l p) (bins h) 1 init_locals)
    as [_ Hall].
  split; [| exact Hall].
  destruct (scan_bins_max_in error (threshold h l p) (bins h) 1 init_locals)
    as [Heq | Hex]; [| exact Hex].
  specialize (Hall b0 Hin0). rewrite Heq in Hall.
  cbn [init_locals l_max] in Hall. lra.
Qed.

(** With no value above the epsilon, the minimum stays [9e99]. *)
Lemma scan_min_sentinel h l p error :
  (forall b, In b (bins h) -> bin_value error b <= 1e-10) ->
  l_min (scan h l p error) = 9e99.
Proof.
  intros Hall. unfold scan.
  destruct (scan_bins_min error (threshold h l p) (bins h) 1 init_locals)
    as [_ [Heq | (b & Hin & _ & Hb)]].
  - exact Heq.
  - specialize (Hall b Hin). lra.
Qed.

Lemma spec_accumulate_min_least (vs : list R) :
  spec_accumulate_min vs <= 9e99
  /\ (forall v, In v vs -> 1e-10 < v -> spec_accumulate_min vs <= v).
Proof.
  induction vs as [| x vs [IH1 IH2]]; cbn [spec_accumulate_min fold_right].
  - split; [lra | intros v []].
  - fold (spec_accumulate_min vs).
    destruct (gtb_spec x 1e-10) as [Hx | Hx];
      destruct (ltb_spec x (spec_accumulate_min vs)) as [Hlt | Hlt];
      cbn [andb]; (split; [lra |]);
      intros v [<- | Hin] Hv; try lra;
      specialize (IH2 v Hin Hv); lra.
Qed.

(** The minimum of the loop is never below the smallest value above the
    epsilon. *)
Lemma scan_min_ge_spec h l p error :
  spec_accumulate_min (map (bin_value error) (bins h))
  <= l_min (scan h l p error).
Proof.
  destruct (spec_accumulate_min_least (map (bin_value error) (bins h)))
    as [Hle Hall].
  unfold scan.
  destruct (scan_bins_min error (threshold h l p) (bins h) 1 init_locals)
    as [_ [-> | (b & Hin & -> & Hb)]].
  - exact Hle.
  - apply Hall; [apply in_map; exact Hin | exact Hb].
Qed.

(** C2.  The smallest bin value above the epsilon is what the loop misses
    on a rising series.  For the two bins 3 and 5, scanned without errors,
    every bin raises the maximum, line 30 is never reached, and the minimum
    stays at [9e99] although 3 is a bin value above [1e-10]; the maximum is
    5, the largest bin value. *)
Theorem smartMax_min_misses_rising_bins :
  forall (l : TLegend) (p : TPad),
    let h := hist_of [(3, 0); (5, 0)] in
    l_max (scan h l p false) = 5
    /\ l_min (scan h l p false) = 9e99
    /\ gmin (smartMax h l p (mkRange 9e99 (-9e99) (-9e99)) false) = 9e99
    /\ spec_accumulate_min (map (bin_value false) (bins h)) = 3.
Proof.
  intros l p h.
  assert (Hmax : l_max (scan h l p false) = 5).
  { unfold scan, h, hist_of. cbn [bins scan_bins].
    rewrite !scan_bin_max. cbn [init_locals l_max bin_value fst].
    unfold Std.max. cmp_eval. reflexivity. }
  assert (Hmin : l_min (scan h l p false) = 9e99).
  { unfold scan, h, hist_of. cbn [bins scan_bins].
    rewrite !scan_bin_min, !scan_bin_max.
    cbn [init_locals l_max l_min bin_value fst].
    unfold Std.max. cmp_eval. reflexivity. }
  split; [exact Hmax |]. split; [exact Hmin |]. split.
  - unfold smartMax, merge. cbn [gmin]. rewrite Hmin.
    unfold Std.min. cmp_eval. reflexivity.
  - unfold h, hist_of, spec_accumulate_min.
    cbn [bins map fold_right bin_value fst]. cmp_eval. cbn [andb].
    cmp_eval. reflexivity.
Qed.

(** ** The merge *)

Lemma merge_monotone g s :
  gmin (merge g s) <= gmin g
  /\ gmax g <= gmax (merge g s)
  /\ gpThreshMax g <= gpThreshMax (merge g s).
Proof.
  unfold merge. cbn [gmin gmax gpThreshMax].
  destruct (std_min_bounds (gmin g) (l_min s)) as (? & _).
  destruct (std_max_bounds (gmax g) (l_max s)) as (? & _).
  destruct (std_max_bounds (gpThreshMax g) (l_pThreshMax s)) as (? & _).
  repeat split; assumption.
Qed.

Lemma smartMax_call_monotone g c :
  gmin (smartMax_call g c) <= gmin g
  /\ gmax g <= gmax (smartMax_call g c)
  /\ gpThreshMax g <= gpThreshMax (smartMax_call g c).
Proof. unfold smartMax_call, smartMax. apply merge_monotone. Qed.

Lemma smartMax_calls_monotone cs : forall g,
  gmin (smartMax_calls g cs) <= gmin g
  /\ gmax g <= gmax (smartMax_calls g cs)
  /\ gpThreshMax g <= gpThreshMax (smartMax_calls g cs).
Proof.
  unfold smartMax_calls.
  induction cs as [| c cs IH]; intros g; cbn [fold_left].
  - repeat split; lra.
  - destruct (IH (smartMax_call g c)) as (H1 & H2 & H3).
    destruct (smartMax_call_monotone g c) as (M1 & M2 & M3).
    repeat split; lra.
Qed.

(** C7.  Whatever calls came before and whatever calls follow, in whatever
    order, the running maximum and the running zone maximum after the
    longer sequence are at least what they were, and the running minimum
    is at most what it was. *)
Theorem smartMax_running_monotone :
  forall (g : range) (before after : list call),
    gmax (smartMax_calls g before)
      <= gmax (smartMax_calls g (before ++ after))
    /\ gpThreshMax (smartMax_calls g before)
      <= gpThreshMax (smartMax_calls g (before ++ after))
    /\ gmin (smartMax_calls g (before ++ after))
      <= gmin (smartMax_calls g before).
Proof.
  intros g before after.
  unfold smartMax_calls at 2 4 5. rewrite fold_left_app.
  fold (smartMax_calls g before).
  fold (smartMax_calls (smartMax_calls g before) after).
  destruct (smartMax_calls_monotone after (smartMax_calls g before))
    as (H1 & H2 & H3).
  repeat split; assumption.
Qed.

(** The order of the calls does not matter for what they leave in the
    accumulators. *)
Lemma merge_swap g s1 s2 : merge (merge g s1) s2 = merge (merge g s2) s1.
Proof.
  unfold merge. cbn [gmin gmax gpThreshMax].
  rewrite !std_max_Rmax, !std_min_Rmin. f_equal.
  - unfold Rmin. repeat destruct (Rle_dec _ _); lra.
  - unfold Rmax. repeat destruct (Rle_dec _ _); lra.
  - unfold Rmax. repeat destruct (Rle_dec _ _); lra.
Qed.

Lemma smartMax_calls_permutation cs cs' :
  Permutation cs cs' ->
  forall g, smartMax_calls g cs = smartMax_calls g cs'.
Proof.
  unfold smartMax_calls.
  induction 1 as [| c cs cs' _ IH | c1 c2 cs | cs1 cs2 cs3 _ IH1 _ IH2];
    intros g; cbn [fold_left].
  - reflexivity.
  - apply IH.
  - f_equal. unfold smartMax_call, smartMax. apply merge_swap.
  - rewrite IH1. apply IH2.
Qed.

(** ** The invariant of the accumulators *)

Lemma scan_zone_le_max h l p error :
  l_pThreshMax (scan h l p error) <= l_max (scan h l p error).
Proof.
  unfold scan. apply scan_bins_zone_le_max. cbn [init_locals l_pThreshMax l_max]. lra.
Qed.

Lemma smartMax_keeps_order h l p g error :
  gmin g <= gmax g -> gpThreshMax g <= gmax g ->
  gmin (smartMax h l p g error) <= gmax (smartMax h l p g error)
  /\ gpThreshMax (smartMax h l p g error) <= gmax (smartMax h l p g error).
Proof.
  intros Hmin Hzone. unfold smartMax, merge. cbn [gmin gmax gpThreshMax].
  pose proof (scan_zone_le_max h l p error) as Hs.
  destruct (std_min_bounds (gmin g) (l_min (scan h l p error))) as (? & _).
  destruct (std_max_bounds (gmax g) (l_max (scan h l p error))) as (? & ? & _).
  destruct (std_max_bounds (gpThreshMax g) (l_pThreshMax (scan h l p error)))
    as (_ & _ & [-> | ->]); split; lra.
Qed.

Lemma smartMax_calls_keep_order cs : forall g,
  gmin g <= gmax g -> gpThreshMax g <= gmax g ->
  gmin (smartMax_calls g cs) <= gmax (smartMax_calls g cs)
  /\ gpThreshMax (smartMax_calls g cs) <= gmax (smartMax_calls g cs).
Proof.
  unfold smartMax_calls.
  induction cs as [| c cs IH]; intros g Hmin Hzone; cbn [fold_left].
  - split; assumption.
  - destruct (smartMax_keeps_order (c_hist c) (c_leg c) (c_pad c) g (c_error c)
                Hmin Hzone) as [H1 H2].
    apply IH; assumption.
Qed.

(** Once a minimum has been recorded it is at most the maximum. *)
Lemma scan_bins_min_le_max error thr bs : forall i s,
  l_min s = 9e99 \/ l_min s <= l_max s ->
  l_min (scan_bins error thr i bs s) = 9e99
  \/ l_min (scan_bins error thr i bs s) <= l_max (scan_bins error thr i bs s).
Proof.
  induction bs as [| b bs IH]; intros i s Hs; cbn [scan_bins]; [exact Hs |].
  apply IH. rewrite scan_bin_min, scan_bin_max. unfold Std.max.
  destruct (gtb_spec (bin_value error b) (l_max s)) as [Hgt | Hle].
  - rewrite (ltb_true (l_max s) (bin_value error b)) by exact Hgt.
    destruct Hs as [Hs | Hs]; [left | right]; lra.
  - rewrite (ltb_false (l_max s) (bin_value error b)) by lra.
    destruct (gtb_spec (bin_value error b) 1e-10);
      destruct (ltb_spec (bin_value error b) (l_min s)); cbn [andb];
      try exact Hs.
    right. lra.
Qed.

(** C6, the claim as stated fails.  Two bins 5e-11 and 3e-11 are strictly
    positive, but neither exceeds the epsilon 1e-10, so that no minimum is
    recorded: the loop ends with min = 9e99 above max = 5e-11, and so do
    accumulators that started at the sentinels of the loop. *)
Lemma smartMax_min_above_max_below_epsilon :
  let h := hist_of [(5e-11, 0); (3e-11, 0)] in
  let g := smartMax h plot_legend pad1 (mkRange 9e99 (-9e99) (-9e99)) false in
  (exists b, In b (bins h) /\ 0 < bin_value false b)
  /\ l_min (scan h plot_legend pad1 false) = 9e99
  /\ l_max (scan h plot_legend pad1 false) = 5e-11
  /\ ~ l_min (scan h plot_legend pad1 false)
       <= l_max (scan h plot_legend pad1 false)
  /\ gmin g = 9e99 /\ gmax g = 5e-11 /\ ~ gmin g <= gmax g.
Proof.
  intros h g.
  assert (Hmax : l_max (scan h plot_legend pad1 false) = 5e-11).
  { unfold scan, h, hist_of. cbn [bins scan_bins].
    rewrite !scan_bin_max. cbn [init_locals l_max bin_value fst].
    unfold Std.max. cmp_eval. reflexivity. }
  assert (Hmin : l_min (scan h plot_legend pad1 false) = 9e99).
  { unfold scan, h, hist_of. cbn [bins scan_bins].
    rewrite !scan_bin_min, !scan_bin_max.
    cbn [init_locals l_max l_min bin_value fst].
    unfold Std.max. cmp_eval. cbn [andb]. reflexivity. }
  assert (Hg : gmin g = 9e99 /\ gmax g = 5e-11).
  { unfold g, smartMax, merge. cbn [gmin gmax]. rewrite Hmin, Hmax.
    unfold Std.min, Std.max. cmp_eval. split; reflexivity. }
  destruct Hg as [Hg1 Hg2].
  split.
  { exists (5e-11, 0). split; [left; reflexivity |].
    cbn [bin_value fst]. lra. }
  split; [exact Hmin |]. split; [exact Hmax |].
  split; [rewrite Hmin, Hmax; lra |].
  split; [exact Hg1 |]. split; [exact Hg2 |].
  rewrite Hg1, Hg2. lra.
Qed.

(** C6, as the program has it.  The triple of the loop has its zone
    maximum at most its maximum in every case, and its minimum at most its
    maximum once a minimum has been recorded (the minimum is no longer
    9e99).  A call keeps gmin <= gmax and gpThreshMax <= gmax when they
    hold on entry, so that the accumulators of [Plotter::plot], which
    start at 0, have min <= 0 <= max and zone maximum <= max after any
    sequence of calls. *)
Theorem smartMax_triple_ordered :
  (forall (h : TH1) (l : TLegend) (p : TPad) (error : bool),
     (l_min (scan h l p error) = 9e99
      \/ l_min (scan h l p error) <= l_max (scan h l p error))
     /\ l_pThreshMax (scan h l p error) <= l_max (scan h l p error))
  /\ (forall (h : TH1) (l : TLegend) (p : TPad) (g : range) (error : bool),
        gmin g <= gmax g -> gpThreshMax g <= gmax g ->
        gmin (smartMax h l p g error) <= gmax (smartMax h l p g error)
        /\ gpThreshMax (smartMax h l p g error)
           <= gmax (smartMax h l p g error))
  /\ (forall (cs : list call),
        gmin (smartMax_calls plot_init cs) <= 0
        /\ 0 <= gmax (smartMax_calls plot_init cs)
        /\ gpThreshMax (smartMax_calls plot_init cs)
           <= gmax (smartMax_calls plot_init cs)).
Proof.
  split; [| split].
  - intros h l p error. split.
    + unfold scan. apply scan_bins_min_le_max. left. reflexivity.
    + apply scan_zone_le_max.
  - intros h l p g error. apply smartMax_keeps_order.
  - intros cs.
    destruct (smartMax_calls_monotone cs plot_init) as (H1 & H2 & _).
    destruct (smartMax_calls_keep_order cs plot_init) as [_ H3];
      [cbn [plot_init gmin gmax]; lra
      | cbn [plot_init gpThreshMax gmax]; lra |].
    cbn [plot_init gmin gmax] in H1, H2. repeat split; assumption.
Qed.

(** One bin of value 5 merged into the start values of the program. *)
Lemma smartMax_triple_ordered_witness :
  let h := hist_of [(5, 0)] in
  (gmin plot_init <= gmax plot_init /\ gpThreshMax plot_init <= gmax plot_init)
  /\ gmin (smartMax h plot_legend pad1 plot_init false)
     <= gmax (smartMax h plot_legend pad1 plot_init false)
  /\ gpThreshMax (smartMax h plot_legend pad1 plot_init false)
     <= gmax (smartMax h plot_legend pad1 plot_init false).
Proof.
  intros h.
  assert (Ha : gmin plot_init <= gmax plot_init)
    by (cbn [plot_init gmin gmax]; lra).
  assert (Hb : gpThreshMax plot_init <= gmax plot_init)
    by (cbn [plot_init gpThreshMax gmax]; lra).
  split; [split; assumption |].
  exact (proj1 (proj2 smartMax_triple_ordered) h plot_legend pad1 plot_init
           false Ha Hb).
Defined.

(** The three accumulators of [Plotter::plot] after its calls: min is at
    most 0, max at least 0, and the zone maximum at most max. *)
Lemma plot_range_around_zero data hbgSum sigs leg pad :
  let g := plot_range data hbgSum sigs leg pad in
  gmin g <= 0 /\ 0 <= gmax g /\ gpThreshMax g <= gmax g.
Proof.
  intros g. unfold g, plot_range.
  destruct (smartMax_calls_monotone (plot_calls data hbgSum sigs leg pad)
              plot_init) as (H1 & H2 & _).
  destruct (smartMax_calls_keep_order (plot_calls data hbgSum sigs leg pad)
              plot_init) as [_ H3];
    [cbn [plot_init gmin gmax]; lra
    | cbn [plot_init gpThreshMax gmax]; lra |].
  cbn [plot_init gmin gmax] in H1, H2. repeat split; assumption.
Qed.

(** Without an ordered start the order can fail: one bin of value 5 merged
    into accumulators that start at the sentinels of the loop leaves
    min = 9e99 above max = 5. *)
Remark smartMax_sentinel_start_unordered :
  forall (l : TLegend) (p : TPad),
    let g := smartMax (hist_of [(5, 0)]) l p (mkRange 9e99 (-9e99) (-9e99))
               false in
    gmin g = 9e99 /\ gmax g = 5.
Proof.
  intros l p. unfold smartMax, merge, scan, hist_of.
  cbn [bins scan_bins gmin gmax gpThreshMax].
  rewrite scan_bin_min, scan_bin_max.
  cbn [init_locals l_min l_max bin_value fst].
  unfold Std.max, Std.min. cmp_eval. cbn [andb]. cmp_eval. split; reflexivity.
Qed.

(** ** The threshold *)

Lemma static_cast_int_IZR (z : Z) : Std.static_cast_int (IZR z) = z.
Proof.
  unfold Std.static_cast_int. destruct (Rle_dec 0 (IZR z)) as [H | H].
  - symmetry. apply Int_part_spec. lra.
  - rewrite <- opp_IZR. rewrite <- (Int_part_spec (IZR (- z)) (- z)%Z).
    + lia.
    + lra.
Qed.

Lemma static_cast_int_nonpos (x : R) : x <= 0 -> (Std.static_cast_int x <= 0)%Z.
Proof.
  intros Hx. unfold Std.static_cast_int. destruct (Rle_dec 0 x) as [H | H].
  - destruct (base_Int_part x) as [Hlo _].
    apply le_IZR. lra.
  - destruct (base_Int_part (- x)) as [_ Hhi].
    assert (Hlt : (-1 < Int_part (- x))%Z) by (apply lt_IZR; lra).
    lia.
Qed.

Lemma static_cast_int_ge (x : R) (n : Z) :
  (0 <= n)%Z -> IZR n <= x -> (n <= Std.static_cast_int x)%Z.
Proof.
  intros Hn Hx. apply IZR_le in Hn.
  unfold Std.static_cast_int. destruct (Rle_dec 0 x) as [H | H]; [| lra].
  destruct (base_Int_part x) as [_ Hhi].
  assert (Hlt : (n - 1 < Int_part x)%Z).
  { apply lt_IZR. rewrite minus_IZR. lra. }
  lia.
Qed.

Lemma threshold_arg_nonpos (n x1 left right : R) :
  0 <= n -> left < 1 - right -> x1 <= left ->
  n * (x1 - left) / ((1 - right) - left) <= 0.
Proof.
  intros Hn Hw Hx.
  assert (Hd : 0 < / ((1 - right) - left)) by (apply Rinv_0_lt_compat; lra).
  assert (Hp : n * (x1 - left) <= 0) by nra.
  unfold Rdiv. nra.
Qed.

Lemma GetNbinsX_nonneg h : (0 <= GetNbinsX h)%Z.
Proof. unfold GetNbinsX. lia. Qed.

(** Left of the frame: the threshold is not positive. *)
Lemma threshold_le_0 h l p :
  LeftMargin p < 1 - RightMargin p -> X1 l <= LeftMargin p ->
  (threshold h l p <= 0)%Z.
Proof.
  intros Hw Hx. unfold threshold, threshold_arg. apply static_cast_int_nonpos.
  apply threshold_arg_nonpos; try assumption.
  apply IZR_le. apply GetNbinsX_nonneg.
Qed.

(** Right of the frame: the threshold is at least the number of bins. *)
Lemma threshold_ge_N h l p :
  LeftMargin p < 1 - RightMargin p -> 1 - RightMargin p <= X1 l ->
  (GetNbinsX h <= threshold h l p)%Z.
Proof.
  intros Hw Hx. unfold threshold, threshold_arg.
  apply static_cast_int_ge; [apply GetNbinsX_nonneg |].
  pose proof (IZR_le _ _ (GetNbinsX_nonneg h)) as Hn.
  apply (Rmult_le_reg_r ((1 - RightMargin p) - LeftMargin p)); [lra |].
  unfold Rdiv. rewrite Rmult_assoc, Rinv_l by lra. nra.
Qed.

Lemma static_cast_int_floor (x : R) (z : Z) :
  0 <= IZR z -> IZR z <= x < IZR z + 1 -> Std.static_cast_int x = z.
Proof.
  intros Hz Hx. unfold Std.static_cast_int.
  destruct (Rle_dec 0 x) as [H | H]; [| lra].
  symmetry. apply Int_part_spec. lra.
Qed.

(** Where the cast is defined its value is an [int]. *)
Lemma static_cast_int_fits (x : R) :
  Std.fits_int x ->
  (-2147483648 <= Std.static_cast_int x <= 2147483647)%Z.
Proof.
  intros [Hlo Hhi]. unfold Std.static_cast_int.
  destruct (base_Int_part x) as [Hx1 Hx2].
  destruct (base_Int_part (- x)) as [Hn1 Hn2].
  destruct (Rle_dec 0 x) as [H0 | H0].
  - assert (H1 : (-1 < Int_part x)%Z) by (apply lt_IZR; lra).
    assert (H2 : (Int_part x < 2147483648)%Z) by (apply lt_IZR; lra).
    lia.
  - assert (H1 : (-1 < Int_part (- x))%Z) by (apply lt_IZR; lra).
    assert (H2 : (Int_part (- x) < 2147483649)%Z) by (apply lt_IZR; lra).
    lia.
Qed.

(** With the threshold at or past the last index, the last bin alone
    decides the zone maximum: it enters when the threshold is its index. *)
Lemma scan_zone_last_exact h l p error front last :
  (GetNbinsX h <= threshold h l p)%Z ->
  bins h = front ++ [last] ->
  l_pThreshMax (scan h l p error)
  = if (threshold h l p =? GetNbinsX h)%Z && (bin_value error last >? -9e99)
    then bin_value error last else -9e99.
Proof.
  unfold scan, GetNbinsX. intros Hthr Hbins. rewrite Hbins in *.
  rewrite length_app in *. cbn [List.length] in *.
  rewrite scan_bins_app. cbn [scan_bins].
  rewrite scan_bin_pThreshMax, scan_bins_zone_skip by lia.
  cbn [init_locals l_pThreshMax]. unfold zone_step.
  destruct (Z.eqb_spec (threshold h l p)
              (Z.of_nat (List.length front + 1))) as [Heq | Hne].
  - replace (threshold h l p <=? 1 + Z.of_nat (List.length front))%Z
      with true by (symmetry; apply Z.leb_le; lia).
    reflexivity.
  - replace (threshold h l p <=? 1 + Z.of_nat (List.length front))%Z
      with false by (symmetry; apply Z.leb_gt; lia).
    reflexivity.
Qed.

(** C3, as the program has it.  For a frame of positive width
    (left margin < 1 - right margin) and a quotient that fits an [int]:
    with the legend's left edge at or before the left margin the threshold
    is at most 0 and every bin is in the zone, whose maximum is the
    maximum over all bins; with the edge at or beyond 1 - right margin the
    threshold is at least the number N of bins, no bin before the last is
    in the zone, the zone maximum is the sentinel -9e99 when the threshold
    exceeds N or there is no bin, and when the threshold equals N the last
    bin is in the zone: the zone maximum is its value (if above -9e99). *)
Theorem zone_threshold_edges :
  forall (h : TH1) (l : TLegend) (p : TPad) (error : bool),
    LeftMargin p < 1 - RightMargin p ->
    Std.fits_int (threshold_arg h l p) ->
    (-2147483648 <= threshold h l p <= 2147483647)%Z
    /\ (X1 l <= LeftMargin p ->
       (threshold h l p <= 0)%Z
       /\ l_pThreshMax (scan h l p error) = l_max (scan h l p error)
       /\ (forall b, In b (bins h) ->
             bin_value error b <= l_pThreshMax (scan h l p error)))
    /\ (1 - RightMargin p <= X1 l ->
       (GetNbinsX h <= threshold h l p)%Z
       /\ ((GetNbinsX h < threshold h l p)%Z ->
             l_pThreshMax (scan h l p error) = -9e99)
       /\ (bins h = [] -> l_pThreshMax (scan h l p error) = -9e99)
       /\ (forall front last, bins h = front ++ [last] ->
             l_pThreshMax (scan h l p error)
             = if (threshold h l p =? GetNbinsX h)%Z
                  && (bin_value error last >? -9e99)
               then bin_value error last else -9e99)).
Proof.
  intros h l p error Hw Hfit.
  split; [unfold threshold; apply static_cast_int_fits; exact Hfit |].
  split; intros Hx.
  - pose proof (threshold_le_0 h l p Hw Hx) as Hthr.
    assert (Hall : l_pThreshMax (scan h l p error) = l_max (scan h l p error))
      by (unfold scan; apply scan_bins_zone_all; [lia | reflexivity]).
    split; [assumption |]. split; [exact Hall |].
    rewrite Hall. unfold scan. apply scan_bins_max_ge.
  - pose proof (threshold_ge_N h l p Hw Hx) as Hthr.
    split; [assumption |]. split; [| split].
    + intros Hgt. unfold scan.
      rewrite scan_bins_zone_skip; [reflexivity |].
      unfold GetNbinsX in Hgt. lia.
    + intros Hnil. unfold scan. rewrite Hnil. reflexivity.
    + intros front last Hbins.
      exact (scan_zone_last_exact h l p error front last Hthr Hbins).
Qed.

(** Two bins 1 and 7 in a frame with margins 0.25 and 0.25: with the
    legend's edge at 0.125 both bins are in the zone; with the edge at
    1.25 the threshold is 4, beyond the last bin, and the zone is empty;
    with the edge at 0.875 the last bin decides. *)
Lemma zone_threshold_edges_witness :
  let h := hist_of [(1, 0); (7, 0)] in
  let p := mkTPad 0.25 0.25 0.1 0.1 false in
  let l1 := mkTLegend 0.125 0.5 1 1 in
  let l2 := mkTLegend 1.25 0.5 1.5 1 in
  let l3 := mkTLegend 0.875 0.5 1 1 in
  (LeftMargin p < 1 - RightMargin p
   /\ Std.fits_int (threshold_arg h l1 p) /\ X1 l1 <= LeftMargin p
   /\ (threshold h l1 p <= 0)%Z
   /\ l_pThreshMax (scan h l1 p false) = l_max (scan h l1 p false))
  /\ (Std.fits_int (threshold_arg h l2 p) /\ 1 - RightMargin p <= X1 l2
      /\ (GetNbinsX h <= threshold h l2 p)%Z)
  /\ (Std.fits_int (threshold_arg h l3 p) /\ 1 - RightMargin p <= X1 l3
      /\ l_pThreshMax (scan h l3 p false)
         = if (threshold h l3 p =? GetNbinsX h)%Z
              && (bin_value false (7, 0) >? -9e99)
           then bin_value false (7, 0) else -9e99).
Proof.
  intros h p l1 l2 l3.
  assert (Hw : LeftMargin p < 1 - RightMargin p)
    by (cbn [LeftMargin RightMargin p]; lra).
  assert (H1 : X1 l1 <= LeftMargin p) by (cbn [LeftMargin X1 p l1]; lra).
  assert (H2 : 1 - RightMargin p <= X1 l2) by (cbn [RightMargin X1 p l2]; lra).
  assert (H3 : 1 - RightMargin p <= X1 l3) by (cbn [RightMargin X1 p l3]; lra).
  assert (F1 : Std.fits_int (threshold_arg h l1 p)).
  { unfold Std.fits_int, threshold_arg, h, l1, p, GetNbinsX, hist_of.
    cbn [bins List.length X1 LeftMargin RightMargin Z.of_nat Pos.of_succ_nat
         Pos.succ]. lra. }
  assert (F2 : Std.fits_int (threshold_arg h l2 p)).
  { unfold Std.fits_int, threshold_arg, h, l2, p, GetNbinsX, hist_of.
    cbn [bins List.length X1 LeftMargin RightMargin Z.of_nat Pos.of_succ_nat
         Pos.succ]. lra. }
  assert (F3 : Std.fits_int (threshold_arg h l3 p)).
  { unfold Std.fits_int, threshold_arg, h, l3, p, GetNbinsX, hist_of.
    cbn [bins List.length X1 LeftMargin RightMargin Z.of_nat Pos.of_succ_nat
         Pos.succ]. lra. }
  split; [| split].
  - split; [exact Hw |]. split; [exact F1 |]. split; [exact H1 |].
    destruct (proj1 (proj2 (zone_threshold_edges h l1 p false Hw F1)) H1)
      as (Ha & Hb & _).
    split; assumption.
  - split; [exact F2 |]. split; [exact H2 |].
    exact (proj1 (proj2 (proj2 (zone_threshold_edges h l2 p false Hw F2))
                    H2)).
  - split; [exact F3 |]. split; [exact H3 |].
    exact (proj2 (proj2 (proj2 (proj2 (proj2
                    (zone_threshold_edges h l3 p false Hw F3)) H3)))
             [(1, 0)] (7, 0) eq_refl).
Defined.

(** C3, the claim as stated fails.  Two bins 1 and 7, margins 0.25 and
    0.25, legend edge at 0.875, beyond 1 - 0.25: the quotient is 2.5, the
    threshold is 2, the number of bins, the last bin is in the zone and
    the zone maximum is 7, not the sentinel. *)
Lemma zone_threshold_last_bin_included :
  let h := hist_of [(1, 0); (7, 0)] in
  let l := mkTLegend 0.875 0.5 1 1 in
  let p := mkTPad 0.25 0.25 0.1 0.1 false in
  LeftMargin p < 1 - RightMargin p
  /\ Std.fits_int (threshold_arg h l p)
  /\ 1 - RightMargin p <= X1 l
  /\ threshold h l p = GetNbinsX h
  /\ l_pThreshMax (scan h l p false) = 7
  /\ l_pThreshMax (scan h l p false) <> -9e99.
Proof.
  intros h l p.
  assert (Hfit : Std.fits_int (threshold_arg h l p)).
  { unfold Std.fits_int, threshold_arg, h, l, p, GetNbinsX, hist_of.
    cbn [bins List.length X1 LeftMargin RightMargin Z.of_nat Pos.of_succ_nat
         Pos.succ]. lra. }
  assert (Hthr : threshold h l p = 2%Z).
  { unfold threshold, threshold_arg, h, l, p, GetNbinsX, hist_of.
    cbn [bins List.length X1 LeftMargin RightMargin Z.of_nat Pos.of_succ_nat
         Pos.succ].
    apply static_cast_int_floor; [lra |]. split.
    - apply (Rmult_le_reg_r (1 - 0.25 - 0.25)); [lra |].
      unfold Rdiv. rewrite Rmult_assoc, Rinv_l by lra. lra.
    - apply (Rmult_lt_reg_r (1 - 0.25 - 0.25)); [lra |].
      unfold Rdiv. rewrite Rmult_assoc, Rinv_l by lra. lra. }
  assert (Hz : l_pThreshMax (scan h l p false) = 7).
  { unfold scan. rewrite Hthr. unfold h, hist_of. cbn [bins scan_bins].
    rewrite !scan_bin_pThreshMax.
    cbn [init_locals l_pThreshMax bin_value fst]. unfold zone_step.
    change (2 <=? 1)%Z with false. change (2 <=? 1 + 1)%Z with true.
    cbn [andb]. cmp_eval. reflexivity. }
  split; [cbn [LeftMargin RightMargin p]; lra |].
  split; [exact Hfit |].
  split; [cbn [RightMargin X1 p l]; lra |].
  split; [rewrite Hthr; reflexivity |].
  split; [exact Hz | rewrite Hz; lra].
Qed.

(** ** The vertical axis range *)

Lemma log_locMin_eq (min : R) : log_locMin min = 0.2.
Proof.
  unfold log_locMin, Std.max, Std.min.
  destruct (ltb_spec 0.2 (0.05 * min)) as [H | H];
    rewrite ltb_false by lra; reflexivity.
Qed.

(** C5.  Whatever the overall minimum, the floor of the log axis,
    min(0.2, max(0.2, 0.05 * min)), is exactly 0.2. *)
Theorem log_floor_is_constant : forall min : R, log_locMin min = 0.2.
Proof. exact log_locMin_eq. Qed.

Lemma one_lt_div (n d : R) : 0 < d -> d < n -> 1 < n / d.
Proof.
  intros Hd Hn. apply (Rmult_lt_reg_r d); [assumption |].
  unfold Rdiv. rewrite Rmult_assoc, Rinv_l by lra. lra.
Qed.

Lemma ln_10_pos : 0 < ln 10.
Proof. rewrite <- ln_1. apply ln_increasing; lra. Qed.

Lemma log10_ln (x : R) : Std.log10 x = ln x * / ln 10.
Proof. reflexivity. Qed.

(** The logarithms of 2, 3 and 5, as far as the examples need them:
    2 < 3 < 4 < 5 < 8. *)
Lemma ln_2_3_5 :
  0 < ln 2 /\ ln 2 < ln 3 /\ ln 3 < 2 * ln 2
  /\ 2 * ln 2 < ln 5 /\ ln 5 < 3 * ln 2.
Proof.
  assert (H4 : ln 4 = 2 * ln 2).
  { replace 4 with (2 * 2) by lra. rewrite ln_mult by lra. lra. }
  assert (H8 : ln 8 = 3 * ln 2).
  { replace 8 with (2 * (2 * 2)) by lra. rewrite !ln_mult by lra. lra. }
  pose proof (ln_increasing 1 2) as H12. rewrite ln_1 in H12.
  pose proof (ln_increasing 2 3). pose proof (ln_increasing 3 4).
  pose proof (ln_increasing 4 5). pose proof (ln_increasing 5 8).
  repeat split; lra.
Qed.

Lemma ln_one_fifth : ln 0.2 = - ln 5.
Proof. replace 0.2 with (/ 5) by lra. apply ln_Rinv. lra. Qed.

Lemma ln_10 : ln 10 = ln 2 + ln 5.
Proof. replace 10 with (2 * 5) by lra. rewrite ln_mult by lra. lra. Qed.

Lemma ln_50 : ln 50 = ln 2 + 2 * ln 5.
Proof.
  replace 50 with (2 * (5 * 5)) by lra. rewrite !ln_mult by lra. lra.
Qed.

Lemma ln_300 : ln (3 * 100) = 2 * ln 2 + ln 3 + 2 * ln 5.
Proof.
  replace (3 * 100) with (2 * (2 * (3 * (5 * 5)))) by lra.
  rewrite !ln_mult by lra. lra.
Qed.

(** Below the legend of the program lie 0.56 / 0.92 of the frame. *)
Lemma legFrac_plot (x : R) : legFrac plot_legend pad1 x = x * (14 / 23).
Proof.
  unfold legFrac, plot_legend, pad1, plot_pad, setupPad.
  cbn [Y1 BottomMargin TopMargin]. lra.
Qed.

Lemma xlog10_pos (x : R) : 0 < x -> Std.xlog10 x = Std.Fin (Std.log10 x).
Proof. intros H. unfold Std.xlog10. rewrite ltb_true by exact H. reflexivity. Qed.

(** [log10] of a value that is not positive exceeds nothing. *)
Lemma xlog10_nonpos_not_gt (x : R) (b : Std.xdouble) :
  x <= 0 -> Std.xgt (Std.xlog10 x) b = false.
Proof.
  intros H. unfold Std.xlog10. rewrite ltb_false by exact H.
  destruct (x <? 0); destruct b; reflexivity.
Qed.

Lemma log_legMin_pos (leg : TLegend) (pad : TPad) (min max : R) :
  0 < max ->
  log_legMin leg pad min max = Std.Fin (log_legMin_real leg pad max).
Proof.
  intros H. unfold log_legMin, log_legMin_real, xlegFrac, legFrac.
  rewrite log_locMin_eq, (xlog10_pos (3 * max)), (xlog10_pos 0.2) by lra.
  cbn [Std.xsub Std.xopp Std.xadd Std.xmul Std.xdiv]. reflexivity.
Qed.

(** The log branch where every logarithm is finite. *)
Lemma y_range_log_pos (leg : TLegend) (pad : TPad) (g : range) :
  0 < gmax g -> 0 < gpThreshMax g ->
  log_rescales leg pad g
  = (Std.log10 (gpThreshMax g) >? log_legMin_real leg pad (gmax g))
  /\ y_range true leg pad g
     = (0.2,
        10 * (if Std.log10 (gpThreshMax g)
                 >? log_legMin_real leg pad (gmax g)
              then Std.pow (gmax g / 0.2)
                     ((Std.log10 (gpThreshMax g) - Std.log10 0.2)
                      / (log_legMin_real leg pad (gmax g) - Std.log10 0.2))
                   * 0.2
              else gmax g)).
Proof.
  intros Hmax Hz. unfold log_rescales, y_range.
  rewrite (log_legMin_pos leg pad (gmin g) (gmax g) Hmax),
    (xlog10_pos (gpThreshMax g) Hz), log_locMin_eq.
  cbn [Std.xgt]. split; reflexivity.
Qed.

Lemma legMin_plot_100 :
  log_legMin_real plot_legend pad1 100
  = (14 * (2 * ln 2 + ln 3 + 3 * ln 5) / 23 - ln 5) * / ln 10.
Proof.
  unfold log_legMin_real. rewrite legFrac_plot, !log10_ln.
  rewrite ln_300, ln_one_fifth. lra.
Qed.

(** C1, as the program has it.  In the log branch the collision decade is
    legMin = (log10(3*max) - log10(0.2)) * (Y1 - bottom)
             / ((1 - top) - bottom) + log10(0.2),
    with Y1 the legend's lower edge.  The rescale is not triggered and the
    range set is from 0.2 to 10 * max when the zone maximum is not
    positive (its log10 is then minus infinity or NaN and exceeds
    nothing), and when, for a positive max and a frame whose height is not
    zero, log10 of the zone maximum does not exceed legMin. *)
Theorem log_range_without_rescale :
  forall (leg : TLegend) (pad : TPad) (g : range),
    let legMin :=
      (Std.log10 (3 * gmax g) - Std.log10 0.2)
      * (Y1 leg - BottomMargin pad)
      / ((1 - TopMargin pad) - BottomMargin pad)
      + Std.log10 0.2 in
    gpThreshMax g <= 0
    \/ (0 < gmax g /\ BottomMargin pad <> 1 - TopMargin pad
        /\ Std.log10 (gpThreshMax g) <= legMin) ->
    log_rescales leg pad g = false
    /\ y_range true leg pad g = (0.2, 10 * gmax g).
Proof.
  intros leg pad g legMin Hcase.
  assert (Hc : Std.xgt (Std.xlog10 (gpThreshMax g))
                 (log_legMin leg pad (gmin g) (gmax g)) = false).
  { destruct Hcase as [Hz | (Hmax & _ & Hle)].
    - apply xlog10_nonpos_not_gt. exact Hz.
    - rewrite (log_legMin_pos leg pad (gmin g) (gmax g) Hmax).
      destruct (Rle_lt_dec (gpThreshMax g) 0) as [Hz | Hz].
      + apply xlog10_nonpos_not_gt. exact Hz.
      + rewrite (xlog10_pos _ Hz). cbn [Std.xgt].
        apply gtb_false. exact Hle. }
  split; [exact Hc |].
  unfold y_range. rewrite Hc, log_locMin_eq. reflexivity.
Qed.

(** With min = 1, max = 100, the legend and the margins of the program, a
    zone maximum of 10 stays below the collision decade and the upper
    bound is exactly 1000; with max = 0.5 and an empty zone (zone maximum
    0) the range is from 0.2 to 5. *)
Lemma log_range_without_rescale_witness :
  ((0 < 100 /\ BottomMargin pad1 <> 1 - TopMargin pad1
    /\ Std.log10 10
       <= (Std.log10 (3 * 100) - Std.log10 0.2)
          * (Y1 plot_legend - BottomMargin pad1)
          / ((1 - TopMargin pad1) - BottomMargin pad1)
          + Std.log10 0.2)
   /\ log_rescales plot_legend pad1 (mkRange 1 100 10) = false
   /\ snd (y_range true plot_legend pad1 (mkRange 1 100 10)) = 1000)
  /\ ((0 : R) <= 0
      /\ log_rescales plot_legend pad1 (mkRange 0 0.5 0) = false
      /\ y_range true plot_legend pad1 (mkRange 0 0.5 0) = (0.2, 10 * 0.5)).
Proof.
  assert (H : Std.log10 10 <= log_legMin_real plot_legend pad1 100).
  { rewrite legMin_plot_100, log10_ln, ln_10.
    pose proof ln_10_pos. pose proof ln_2_3_5 as (? & ? & ? & ? & ?).
    apply Rmult_le_compat_r; [left; apply Rinv_0_lt_compat; lra | lra]. }
  assert (Hd : BottomMargin pad1 <> 1 - TopMargin pad1)
    by (cbn [BottomMargin TopMargin pad1 plot_pad setupPad]; lra).
  assert (H100 : (0 : R) < 100) by lra.
  assert (H0 : (0 : R) <= 0) by lra.
  split.
  - split; [split; [exact H100 | split; [exact Hd | exact H]] |].
    destruct (log_range_without_rescale plot_legend pad1 (mkRange 1 100 10)
                (or_intror (conj H100 (conj Hd H)))) as [H1 H2].
    split; [exact H1 |].
    rewrite H2. cbn [snd gmax]. lra.
  - split; [exact H0 |].
    exact (log_range_without_rescale plot_legend pad1 (mkRange 0 0.5 0)
             (or_introl H0)).
Defined.

(** C1, the example as stated fails.  With min = 1, max = 100 and
    zoneMax = 50 the program, which reads the legend's lower edge 0.56,
    does rescale and sets an upper bound above 1000; the test worded with
    the upper edge 0.88 would not rescale. *)
Lemma log_example_rescales :
  let g := mkRange 1 100 50 in
  log_rescales plot_legend pad1 g = true
  /\ 1000 < snd (y_range true plot_legend pad1 g)
  /\ spec_log_rescales (Y2 plot_legend) (TopMargin pad1) (BottomMargin pad1)
       100 50 = false.
Proof.
  intros g. unfold g.
  pose proof ln_10_pos as H10. pose proof ln_2_3_5 as (Ha & Hb & Hb' & Hc & Hc').
  assert (HK : 0 < / ln 10) by (apply Rinv_0_lt_compat; lra).
  assert (Hgt : log_legMin_real plot_legend pad1 100 < Std.log10 50).
  { rewrite legMin_plot_100, log10_ln, ln_50.
    apply Rmult_lt_compat_r; [assumption | lra]. }
  assert (Hres : (Std.log10 50 >? log_legMin_real plot_legend pad1 100) = true)
    by (apply gtb_true; exact Hgt).
  destruct (y_range_log_pos plot_legend pad1 (mkRange 1 100 50))
    as [Hr Hy]; [cbn [gmax]; lra | cbn [gpThreshMax]; lra |].
  cbn [gmin gmax gpThreshMax] in Hr, Hy. rewrite Hres in Hr, Hy.
  split; [exact Hr |]. split.
  - rewrite Hy. cbn [snd]. unfold Std.pow.
    assert (Hscale : 1 < (Std.log10 50 - Std.log10 0.2)
                         / (log_legMin_real plot_legend pad1 100
                            - Std.log10 0.2)).
    { apply one_lt_div; [| lra].
      rewrite legMin_plot_100, log10_ln, ln_one_fifth.
      replace ((14 * (2 * ln 2 + ln 3 + 3 * ln 5) / 23 - ln 5) * / ln 10
               - - ln 5 * / ln 10)
        with ((14 * (2 * ln 2 + ln 3 + 3 * ln 5) / 23) * / ln 10) by lra.
      apply Rmult_lt_0_compat; [lra | assumption]. }
    replace (100 / 0.2) with 500 by lra.
    pose proof (Rpower_lt 500 1 _ ltac:(lra) Hscale) as Hp.
    rewrite Rpower_1 in Hp by lra. lra.
  - unfold spec_log_rescales, plot_legend, pad1, plot_pad, setupPad.
    cbn [Y2 TopMargin BottomMargin]. apply gtb_false.
    rewrite !log10_ln, ln_300, ln_50, ln_one_fifth.
    replace ((((2 * ln 2 + ln 3 + 2 * ln 5) * / ln 10 - - ln 5 * / ln 10)
              * (0.88 - 0.0) / (1 - 0.08 - 0.0)) + - ln 5 * / ln 10)
      with ((22 * (2 * ln 2 + ln 3 + 3 * ln 5) / 23 - ln 5) * / ln 10) by lra.
    apply Rmult_le_compat_r; [left; assumption | lra].
Qed.

(** With max = 0, [log10(3*max)] is minus infinity and so is [legMin]
    for a legend above the bottom of a frame of positive height: no
    rescale for a zone maximum that is not positive, and for a positive
    one the scale is a zero, [pow] gives 1 and the range is 0.2 to 2. *)
Remark log_range_at_zero_max (leg : TLegend) (pad : TPad) (min lmax : R) :
  BottomMargin pad < Y1 leg -> BottomMargin pad < 1 - TopMargin pad ->
  log_legMin leg pad min 0 = Std.NInf
  /\ (lmax <= 0 -> y_range true leg pad (mkRange min 0 lmax) = (0.2, 10 * 0))
  /\ (0 < lmax -> y_range true leg pad (mkRange min 0 lmax) = (0.2, 2)).
Proof.
  intros Ha Hd.
  assert (Hleg : log_legMin leg pad min 0 = Std.NInf).
  { unfold log_legMin, xlegFrac, Std.xlog10 at 1.
    rewrite log_locMin_eq, (xlog10_pos 0.2) by lra.
    rewrite !(ltb_false _ _) by lra.
    cbn [Std.xsub Std.xopp Std.xadd Std.xmul].
    rewrite (ltb_false (Y1 leg - BottomMargin pad) 0) by lra.
    rewrite (ltb_true 0 (Y1 leg - BottomMargin pad)) by lra.
    cbn [Std.xdiv]. unfold Std.xinf_signed.
    rewrite ltb_false by lra. reflexivity. }
  split; [exact Hleg |]. split; intros Hz.
  - unfold y_range. cbn [gmin gmax gpThreshMax].
    rewrite xlog10_nonpos_not_gt, log_locMin_eq by exact Hz. reflexivity.
  - unfold y_range. cbn [gmin gmax gpThreshMax].
    rewrite Hleg, (xlog10_pos lmax Hz), log_locMin_eq. cbn [Std.xgt].
    unfold Std.pow, Rpower. rewrite Rmult_0_l, exp_0. f_equal. lra.
Qed.

Lemma lin_legMin_eq (leg : TLegend) (pad : TPad) (max : R) :
  lin_legMin leg pad max
  = 1.2 * max * (Y1 leg - BottomMargin pad)
    / ((1 - TopMargin pad) - BottomMargin pad).
Proof.
  unfold lin_legMin, legFrac. replace (1.2 * max - 0.0) with (1.2 * max) by lra.
  reflexivity.
Qed.

(** C4, as the program has it.  In the linear branch, with
    legendMin = 1.2 * max * (Y1 - bottom) / ((1 - top) - bottom), where Y1
    is the legend's lower edge: when the zone maximum exceeds legendMin the
    range set is from 0 to 1.3 * (max * zoneMax / legendMin), and otherwise
    from 0 to 1.3 * max. *)
Theorem lin_range_from_lower_edge :
  forall (leg : TLegend) (pad : TPad) (g : range),
    let legendMin :=
      1.2 * gmax g * (Y1 leg - BottomMargin pad)
      / ((1 - TopMargin pad) - BottomMargin pad) in
    (legendMin < gpThreshMax g ->
       lin_rescales leg pad g = true
       /\ y_range false leg pad g
          = (0, 1.3 * (gmax g * (gpThreshMax g / legendMin))))
    /\ (gpThreshMax g <= legendMin ->
       lin_rescales leg pad g = false
       /\ y_range false leg pad g = (0, 1.3 * gmax g)).
Proof.
  intros leg pad g legendMin.
  assert (Heq : lin_legMin leg pad (gmax g) = legendMin)
    by apply lin_legMin_eq.
  unfold lin_rescales, y_range. rewrite Heq.
  replace 0.0 with 0 by lra. rewrite !Rminus_0_r.
  split; intros Hcmp.
  - rewrite gtb_true by assumption. split; [reflexivity |].
    f_equal. apply Rmult_comm.
  - rewrite gtb_false by assumption. split; [reflexivity |].
    f_equal. apply Rmult_comm.
Qed.

(** For max = 10 and zoneMax = 9 with the legend and margins of the program,
    legendMin is 12 * 0.56 / 0.92, below 9, and the rescale takes place. *)
Lemma lin_range_from_lower_edge_witness :
  let g := mkRange 0 10 9 in
  let legendMin :=
    1.2 * 10 * (Y1 plot_legend - BottomMargin pad1)
    / ((1 - TopMargin pad1) - BottomMargin pad1) in
  legendMin < 9
  /\ lin_rescales plot_legend pad1 g = true
  /\ y_range false plot_legend pad1 g = (0, 1.3 * (10 * (9 / legendMin))).
Proof.
  intros g legendMin.
  assert (H : legendMin < 9).
  { unfold legendMin, plot_legend, pad1, plot_pad, setupPad.
    cbn [Y1 BottomMargin TopMargin]. lra. }
  split; [exact H |].
  exact (proj1 (lin_range_from_lower_edge plot_legend pad1 g) H).
Defined.

(** C4, the claim as stated fails.  For max = 10 and zoneMax = 9, the
    formula with the legend's upper edge 0.88 gives legendMin above 9, no
    rescale and the upper bound 13; the program, with the lower edge 0.56,
    rescales and sets an upper bound above 16. *)
Lemma lin_example_differs_from_upper_edge :
  let g := mkRange 0 10 9 in
  spec_lin_range (Y2 plot_legend) (TopMargin pad1) (BottomMargin pad1) 10 9
  = (0, 1.3 * 10)
  /\ 16 < snd (y_range false plot_legend pad1 g)
  /\ y_range false plot_legend pad1 g
     <> spec_lin_range (Y2 plot_legend) (TopMargin pad1) (BottomMargin pad1)
          10 9.
Proof.
  intros g.
  assert (Hspec : spec_lin_range (Y2 plot_legend) (TopMargin pad1)
                    (BottomMargin pad1) 10 9 = (0, 1.3 * 10)).
  { unfold spec_lin_range, plot_legend, pad1, plot_pad, setupPad.
    cbn [Y2 BottomMargin TopMargin]. rewrite gtb_false by lra. reflexivity. }
  assert (Hcode : 16 < snd (y_range false plot_legend pad1 g)).
  { unfold y_range, lin_legMin, legFrac, g, plot_legend, pad1, plot_pad,
      setupPad.
    cbn [Y1 BottomMargin TopMargin gmin gmax gpThreshMax].
    rewrite gtb_true by lra. cbn [snd]. lra. }
  split; [exact Hspec |]. split; [exact Hcode |].
  intros Heq. rewrite Heq, Hspec in Hcode. cbn [snd] in Hcode. lra.
Qed.

(** ** retrieveHistogram *)

(** C8.  When the file cannot be opened, or it opens and holds nothing
    under the histogram's name, [retrieveHistogram] returns with one more
    line printed (the message of the case at hand) and with the stored
    histogram pointer null. *)
Theorem retrieveHistogram_missing :
  forall (TFile_Open : string -> option TFile) (TH1_Rebin : Z -> TH1 -> TH1)
         (hi : histInfo) (out : list string),
    (TFile_Open (histFile hi) = None
     \/ exists f, TFile_Open (histFile hi) = Some f /\ f (histName hi) = None) ->
    let r := retrieveHistogram TFile_Open TH1_Rebin hi out in
    h (fst r) = None
    /\ fst r = set_h hi None
    /\ (TFile_Open (histFile hi) = None ->
          snd r = out ++ [msg_no_file (histFile hi)])
    /\ (TFile_Open (histFile hi) <> None ->
          snd r = out ++ [msg_no_hist (histName hi) (histFile hi)]).
Proof.
  intros TFile_Open TH1_Rebin hi out Hmiss r. unfold r, retrieveHistogram.
  destruct Hmiss as [Hopen | (f & Hopen & Hget)]; rewrite Hopen.
  - cbn [fst snd set_h h].
    split; [reflexivity |]. split; [reflexivity |].
    split; [reflexivity | congruence].
  - rewrite Hget. cbn [fst snd set_h h].
    split; [reflexivity |]. split; [reflexivity |].
    split; [congruence | reflexivity].
Qed.

(** No file at all: the data entry of the program gets a null histogram
    and the first message. *)
Lemma retrieveHistogram_missing_witness :
  let hi := mkHistInfo "Data"%string "missing.root"%string
              "ttbar/HT"%string "PEX0"%string 1 5
              (Some (hist_of [(1, 0)])) in
  let r := retrieveHistogram (fun _ => None) (fun _ t => t) hi [] in
  h (fst r) = None /\ snd r = [msg_no_file "missing.root"%string].
Proof.
  intros hi r.
  destruct (retrieveHistogram_missing (fun _ => None) (fun _ t => t) hi []
              (or_introl eq_refl)) as (H1 & _ & H3 & _).
  split; [exact H1 | exact (H3 eq_refl)].
Defined.

(** ** The name of the image file *)

Open Scope string_scope.

Lemma append_assoc (a b c : string) : (a ++ b) ++ c = a ++ (b ++ c).
Proof. induction a as [| x a IH]; cbn [append]; [| rewrite IH]; reflexivity. Qed.

Lemma length_append (a b : string) :
  String.length (a ++ b) = (String.length a + String.length b)%nat.
Proof.
  induction a as [| x a IH]; cbn [append String.length]; [| rewrite IH];
    reflexivity.
Qed.

Lemma has_slash_append (a b : string) :
  has_slash (a ++ b) = has_slash a || has_slash b.
Proof.
  induction a as [| x a IH]; cbn [append has_slash]; [reflexivity |].
  rewrite IH. apply orb_assoc.
Qed.

Lemma has_slash_cons_false (x : ascii) (s : string) :
  has_slash (String x s) = false ->
  Ascii.eqb x "/" = false /\ has_slash s = false.
Proof. cbn [has_slash]. apply orb_false_elim. Qed.

(** A name with a slash splits at its first one. *)
Lemma first_slash (s : string) :
  has_slash s = true ->
  exists mid rest, s = mid ++ String "/" rest /\ has_slash mid = false.
Proof.
  induction s as [| x s IH]; cbn [has_slash]; [discriminate |].
  destruct (Ascii.eqb_spec x "/") as [-> | Hx]; cbn [orb].
  - intros _. exists "", s. split; reflexivity.
  - intros Hs. destruct (IH Hs) as (mid & rest & -> & Hmid).
    exists (String x mid), rest. split; [reflexivity |].
    cbn [has_slash]. rewrite Hmid.
    destruct (Ascii.eqb_spec x "/"); [contradiction | reflexivity].
Qed.

Lemma replace_slashes_none (s : string) :
  has_slash s = false -> replace_slashes s = s.
Proof.
  induction s as [| x s IH]; [reflexivity |].
  intros H. apply has_slash_cons_false in H as [Hx Hs].
  cbn [replace_slashes]. rewrite Hx, IH by assumption. reflexivity.
Qed.

Lemma replace_slashes_first (mid rest : string) :
  has_slash mid = false ->
  replace_slashes (mid ++ String "/" rest)
  = mid ++ String "_" (replace_slashes rest).
Proof.
  induction mid as [| x mid IH]; intros H.
  - reflexivity.
  - apply has_slash_cons_false in H as [Hx Hs].
    cbn [append replace_slashes]. rewrite Hx, IH by assumption. reflexivity.
Qed.

Lemma find_from_none (s : string) : forall from,
  has_slash s = false -> find_from s "/" from = None.
Proof.
  induction s as [| x s IH]; intros from H; [reflexivity |].
  apply has_slash_cons_false in H as [Hx Hs].
  cbn [find_from]. rewrite Hx, andb_false_r, IH by assumption. reflexivity.
Qed.

Lemma find_from_first (mid rest : string) :
  has_slash mid = false ->
  find_from (mid ++ String "/" rest) "/" 0
  = Some (N.of_nat (String.length mid)).
Proof.
  induction mid as [| x mid IH]; intros H.
  - reflexivity.
  - apply has_slash_cons_false in H as [Hx Hs].
    cbn [append find_from String.length]. rewrite Hx, andb_false_r.
    change (N.pred 0) with 0%N. rewrite IH by assumption.
    cbn [option_map]. f_equal. lia.
Qed.

Lemma find_from_skip (c : ascii) (pre s : string) : forall k,
  find_from (pre ++ s) c (N.of_nat (String.length pre) + k)
  = option_map (N.add (N.of_nat (String.length pre))) (find_from s c k).
Proof.
  induction pre as [| x pre IH]; intros k.
  - cbn [append String.length]. change (N.of_nat 0) with 0%N.
    rewrite N.add_0_l. destruct (find_from s c k); reflexivity.
  - cbn [append String.length find_from].
    replace (N.of_nat (S (String.length pre)) + k =? 0)%N with false
      by (symmetry; apply N.eqb_neq; lia).
    cbn [andb].
    replace (N.pred (N.of_nat (S (String.length pre)) + k))
      with (N.of_nat (String.length pre) + k)%N by lia.
    rewrite IH. destruct (find_from s c k); cbn [option_map]; [| reflexivity].
    f_equal. lia.
Qed.

Lemma set_at_past_end (c : ascii) (s : string) : forall pos,
  (N.of_nat (String.length s) <= pos)%N -> set_at s pos c = None.
Proof.
  induction s as [| x s IH]; intros pos H; [reflexivity |].
  cbn [String.length] in H. cbn [set_at].
  replace (pos =? 0)%N with false by (symmetry; apply N.eqb_neq; lia).
  rewrite IH by lia. reflexivity.
Qed.

Lemma set_at_middle (c x : ascii) (pre rest : string) :
  set_at (pre ++ String x rest) (N.of_nat (String.length pre)) c
  = Some (pre ++ String c rest).
Proof.
  induction pre as [| y pre IH].
  - reflexivity.
  - cbn [append String.length set_at].
    replace (N.of_nat (S (String.length pre)) =? 0)%N with false
      by (symmetry; apply N.eqb_neq; lia).
    replace (N.pred (N.of_nat (S (String.length pre))))
      with (N.of_nat (String.length pre)) by lia.
    rewrite IH. reflexivity.
Qed.

Lemma size_t_add_small (a : N) : (a + 1 < npos)%N -> size_t_add a 1 = (a + 1)%N.
Proof.
  unfold size_t_add, npos. intros H. apply N.mod_small.
  change (2 ^ 64)%N with 18446744073709551616%N. lia.
Qed.

(** Entered at a slash with nothing but slash-free text before it, the
    loop replaces that slash and every later one, and returns. *)
Lemma replace_loop_from_slash : forall (fuel : nat) (pre rest : string),
  has_slash pre = false ->
  (String.length rest < fuel)%nat ->
  (N.of_nat (String.length pre + S (String.length rest)) < npos)%N ->
  replace_loop fuel (pre ++ String "/" rest) (N.of_nat (String.length pre))
  = Returns (pre ++ String "_" (replace_slashes rest)).
Proof.
  induction fuel as [| fuel IH]; intros pre rest Hpre Hfuel Hsize; [lia |].
  cbn [replace_loop]. rewrite set_at_middle.
  rewrite size_t_add_small by lia.
  unfold find. rewrite find_from_skip. cbn [find_from].
  change (1 =? 0)%N with false. cbn [andb]. change (N.pred 1) with 0%N.
  destruct (has_slash rest) eqn:Hrest.
  - destruct (first_slash rest Hrest) as (mid & rest' & -> & Hmid).
    rewrite find_from_first by assumption. cbn [option_map].
    rewrite length_append in Hfuel, Hsize. cbn [String.length] in Hfuel, Hsize.
    replace (N.of_nat (String.length pre) + N.succ (N.of_nat (String.length mid))
             =? npos)%N with false by (symmetry; apply N.eqb_neq; lia).
    replace (pre ++ String "_" (mid ++ String "/" rest'))
      with ((pre ++ String "_" mid) ++ String "/" rest')
      by (rewrite append_assoc; reflexivity).
    replace (N.of_nat (String.length pre) + N.succ (N.of_nat (String.length mid)))%N
      with (N.of_nat (String.length (pre ++ String "_" mid)))
      by (rewrite length_append; cbn [String.length]; lia).
    rewrite IH.
    + rewrite replace_slashes_first by assumption.
      rewrite append_assoc. reflexivity.
    + rewrite has_slash_append. cbn [has_slash]. rewrite Hpre, Hmid. reflexivity.
    + lia.
    + rewrite length_append. cbn [String.length]. lia.
  - rewrite find_from_none by assumption. cbn [option_map].
    rewrite N.eqb_refl, replace_slashes_none by assumption. reflexivity.
Qed.

(** C10.  For a name of a length a [std::string] can have: without a
    slash the first [find] gives [npos], writing there is out of bounds
    and the loop is undefined; with at least one slash the loop returns
    and the name printed is the histogram name with every slash replaced
    by an underscore, followed by .png. *)
Theorem output_name_defined_iff_slash :
  forall (histName : string),
    (N.of_nat (String.length histName) < npos)%N ->
    (has_slash histName = false ->
       find histName "/" 0 = npos
       /\ set_at histName npos "_" = None
       /\ output_name histName = Undefined)
    /\ (has_slash histName = true ->
       output_name histName
       = Returns (replace_slashes histName ++ ".png")).
Proof.
  intros name Hsize. split; intros Hslash.
  - assert (Hfind : find name "/" 0 = npos)
      by (unfold find; rewrite find_from_none by assumption; reflexivity).
    assert (Hset : set_at name npos "_" = None)
      by (apply set_at_past_end; lia).
    split; [exact Hfind |]. split; [exact Hset |].
    unfold output_name. rewrite Hfind. cbn [replace_loop]. rewrite Hset.
    reflexivity.
  - destruct (first_slash name Hslash) as (mid & rest & -> & Hmid).
    unfold output_name, find. rewrite find_from_first by assumption.
    rewrite length_append in *. cbn [String.length] in *.
    rewrite replace_loop_from_slash by (try assumption; lia).
    rewrite replace_slashes_first by assumption. reflexivity.
Qed.

(** The names of the program, such as ttbar/HT, have a slash; HT alone has
    none. *)
Lemma output_name_defined_iff_slash_witness :
  ((N.of_nat (String.length "ttbar/HT") < npos)%N
   /\ has_slash "ttbar/HT" = true
   /\ output_name "ttbar/HT" = Returns "ttbar_HT.png")
  /\ ((N.of_nat (String.length "HT") < npos)%N
      /\ has_slash "HT" = false
      /\ output_name "HT" = Undefined).
Proof.
  assert (H1 : (N.of_nat (String.length "ttbar/HT") < npos)%N) by reflexivity.
  assert (H2 : (N.of_nat (String.length "HT") < npos)%N) by reflexivity.
  split.
  - split; [exact H1 |]. split; [reflexivity |].
    exact (proj2 (output_name_defined_iff_slash "ttbar/HT" H1) eq_refl).
  - split; [exact H2 |]. split; [reflexivity |].
    exact (proj2 (proj2 (proj1 (output_name_defined_iff_slash "HT" H2)
                           eq_refl))).
Defined.

(** C9.  The claim is for every name; for a name without a slash the
    program has no defined output name.  For nJets the first [find] gives
    [npos], the body of the do-while writes at [npos] before any test, and
    nothing is returned, where the claim asks for nJets.png. *)
Theorem output_name_without_slash :
  find "nJets" "/" 0 = npos
  /\ output_name "nJets" = Undefined
  /\ replace_slashes "nJets" ++ ".png" = "nJets.png".
Proof. repeat split. Qed.

Close Scope string_scope.

(** * Further properties of [smartMax] *)

Section LoopMore.

Variable error : bool.

(** The zone maximum never falls during the loop. *)
Lemma scan_bins_zone_ge thr bs : forall i s,
  l_pThreshMax s <= l_pThreshMax (scan_bins error thr i bs s).
Proof.
  induction bs as [| b bs IH]; intros i s; cbn [scan_bins]; [lra |].
  specialize (IH (i + 1)%Z (scan_bin error thr i b s)).
  rewrite scan_bin_pThreshMax in IH at 1. unfold zone_step in IH.
  destruct (thr <=? i)%Z; cbn [andb] in IH; [| exact IH].
  destruct (gtb_spec (bin_value error b) (l_pThreshMax s)); lra.
Qed.

(** A later threshold gives a zone maximum that is no larger. *)
Lemma scan_bins_zone_antitone thr1 thr2 bs : (thr1 <= thr2)%Z ->
  forall i s1 s2,
    l_pThreshMax s2 <= l_pThreshMax s1 ->
    l_pThreshMax (scan_bins error thr2 i bs s2)
    <= l_pThreshMax (scan_bins error thr1 i bs s1).
Proof.
  intros Hthr. induction bs as [| b bs IH]; intros i s1 s2 Hs;
    cbn [scan_bins]; [exact Hs |].
  apply IH. rewrite !scan_bin_pThreshMax. unfold zone_step.
  destruct (Z.leb_spec thr2 i) as [H2 | H2]; cbn [andb].
  - replace (thr1 <=? i)%Z with true by (symmetry; apply Z.leb_le; lia).
    cbn [andb].
    destruct (gtb_spec (bin_value error b) (l_pThreshMax s2));
      destruct (gtb_spec (bin_value error b) (l_pThreshMax s1)); lra.
  - destruct (thr1 <=? i)%Z; cbn [andb]; [| exact Hs].
    destruct (gtb_spec (bin_value error b) (l_pThreshMax s1)); lra.
Qed.

(** Neither the minimum nor the maximum looks at the threshold or at the
    index. *)
Lemma scan_bins_min_max_any_threshold thr1 thr2 bs : forall i1 i2 s1 s2,
  l_min s1 = l_min s2 -> l_max s1 = l_max s2 ->
  l_min (scan_bins error thr1 i1 bs s1) = l_min (scan_bins error thr2 i2 bs s2)
  /\ l_max (scan_bins error thr1 i1 bs s1)
     = l_max (scan_bins error thr2 i2 bs s2).
Proof.
  induction bs as [| b bs IH]; intros i1 i2 s1 s2 Hmin Hmax; cbn [scan_bins].
  - split; assumption.
  - apply IH.
    + rewrite !scan_bin_min, Hmin, Hmax. reflexivity.
    + rewrite !scan_bin_max, Hmax. reflexivity.
Qed.

End LoopMore.

Lemma scan_min_le_sentinel h l p error : l_min (scan h l p error) <= 9e99.
Proof.
  unfold scan.
  destruct (scan_bins_min error (threshold h l p) (bins h) 1 init_locals)
    as [H _]. exact H.
Qed.

Lemma scan_max_ge_sentinel h l p error : -9e99 <= l_max (scan h l p error).
Proof.
  unfold scan.
  destruct (scan_bins_max_ge error (threshold h l p) (bins h) 1 init_locals)
    as [H _]. exact H.
Qed.

Lemma scan_zone_ge_sentinel h l p error :
  -9e99 <= l_pThreshMax (scan h l p error).
Proof.
  unfold scan.
  exact (scan_bins_zone_ge error (threshold h l p) (bins h) 1 init_locals).
Qed.

Lemma std_max_absorb (a b : R) : b <= a -> Std.max a b = a.
Proof. intros H. unfold Std.max. rewrite ltb_false by lra. reflexivity. Qed.

Lemma std_min_absorb (a b : R) : a <= b -> Std.min a b = a.
Proof. intros H. unfold Std.min. rewrite ltb_false by lra. reflexivity. Qed.

Lemma std_max_take (a b : R) : a <= b -> Std.max a b = b.
Proof.
  intros H. unfold Std.max. destruct (ltb_spec a b); [reflexivity | lra].
Qed.

Lemma std_min_take (a b : R) : b <= a -> Std.min a b = b.
Proof.
  intros H. unfold Std.min. destruct (ltb_spec b a); [reflexivity | lra].
Qed.

(** X1.  What a sequence of calls leaves in the three accumulators does
    not depend on the order of the calls. *)
Theorem smartMax_calls_order_irrelevant :
  forall (cs cs' : list call) (g : range),
    Permutation cs cs' -> smartMax_calls g cs = smartMax_calls g cs'.
Proof. intros cs cs' g H. apply smartMax_calls_permutation. exact H. Qed.

Lemma smartMax_calls_order_irrelevant_witness :
  let a := mkCall (hist_of [(3, 1); (5, 0)]) plot_legend pad1 true in
  let b := mkCall (hist_of [(7, 0)]) plot_legend pad1 false in
  Permutation [a; b] [b; a]
  /\ smartMax_calls plot_init [a; b] = smartMax_calls plot_init [b; a].
Proof.
  intros a b.
  assert (H : Permutation [a; b] [b; a]) by apply perm_swap.
  split; [exact H |].
  exact (smartMax_calls_order_irrelevant [a; b] [b; a] plot_init H).
Defined.

(** X2.  The maximum found by the loop bounds every bin value and is at
    least -9e99; it is one of the bin values as soon as one of them exceeds
    -9e99, and it is -9e99 when none does (an empty histogram included). *)
Theorem scan_max_characterised :
  forall (h : TH1) (l : TLegend) (p : TPad) (error : bool),
    (forall b, In b (bins h) -> bin_value error b <= l_max (scan h l p error))
    /\ -9e99 <= l_max (scan h l p error)
    /\ ((exists b, In b (bins h) /\ -9e99 < bin_value error b) ->
        exists b, In b (bins h)
                  /\ l_max (scan h l p error) = bin_value error b)
    /\ ((forall b, In b (bins h) -> bin_value error b <= -9e99) ->
        l_max (scan h l p error) = -9e99).
Proof.
  intros h l p error.
  pose proof (scan_max_ge_sentinel h l p error) as Hge.
  split; [| split; [exact Hge | split]].
  - unfold scan. apply scan_bins_max_ge.
  - intros Hex. apply (scan_max_largest h l p error Hex).
  - intros Hall. unfold scan in *.
    destruct (scan_bins_max_in error (threshold h l p) (bins h) 1 init_locals)
      as [Heq | (b & Hin & Heq)].
    + exact Heq.
    + specialize (Hall b Hin). rewrite <- Heq in Hall.
      apply Rle_antisym; assumption.
Qed.

Lemma scan_max_characterised_witness :
  let h := hist_of [(3, 1); (5, 0)] in
  (exists b, In b (bins h) /\ -9e99 < bin_value true b)
  /\ (exists b, In b (bins h)
                /\ l_max (scan h plot_legend pad1 true) = bin_value true b)
  /\ (forall b, In b (bins (hist_of [])) -> bin_value true b <= -9e99)
  /\ l_max (scan (hist_of []) plot_legend pad1 true) = -9e99.
Proof.
  intros h.
  assert (H1 : exists b, In b (bins h) /\ -9e99 < bin_value true b).
  { exists (3, 1). split; [left; reflexivity |].
    cbn [bin_value fst snd]. lra. }
  assert (H2 : forall b, In b (bins (hist_of [])) -> bin_value true b <= -9e99)
    by (intros b []).
  split; [exact H1 |]. split.
  - exact (proj1 (proj2 (proj2 (scan_max_characterised h plot_legend pad1 true)))
             H1).
  - split; [exact H2 |].
    exact (proj2 (proj2 (proj2
             (scan_max_characterised (hist_of []) plot_legend pad1 true))) H2).
Defined.

(** X3.  The minimum found by the loop is 9e99 or a bin value strictly
    between 1e-10 and 9e99, and it is 9e99 when no bin value exceeds
    1e-10: zero and negative bins never become the minimum. *)
Theorem scan_min_characterised :
  forall (h : TH1) (l : TLegend) (p : TPad) (error : bool),
    (l_min (scan h l p error) = 9e99
     \/ exists b, In b (bins h)
                  /\ l_min (scan h l p error) = bin_value error b
                  /\ 1e-10 < bin_value error b < 9e99)
    /\ ((forall b, In b (bins h) -> bin_value error b <= 1e-10) ->
        l_min (scan h l p error) = 9e99).
Proof.
  intros h l p error. split.
  - pose proof (scan_min_le_sentinel h l p error) as Hle. unfold scan in *.
    destruct (scan_bins_min error (threshold h l p) (bins h) 1 init_locals)
      as [_ [Heq | (b & Hin & Heq & Hb)]].
    + left. exact Heq.
    + destruct (Rle_lt_or_eq_dec _ _ Hle) as [Hlt | Heq'].
      * right. exists b. rewrite <- Heq. repeat split; try assumption.
        rewrite Heq. exact Hb.
      * left. exact Heq'.
  - apply scan_min_sentinel.
Qed.

Lemma scan_min_characterised_witness :
  let h := hist_of [(0, 0); (-2, 1)] in
  (forall b, In b (bins h) -> bin_value false b <= 1e-10)
  /\ l_min (scan h plot_legend pad1 false) = 9e99.
Proof.
  intros h.
  assert (H : forall b, In b (bins h) -> bin_value false b <= 1e-10).
  { intros b [<- | [<- | []]]; cbn [bin_value fst]; lra. }
  split; [exact H |].
  exact (proj2 (scan_min_characterised h plot_legend pad1 false) H).
Defined.

(** X4.  A histogram without bins leaves accumulators alone that lie on the
    right side of the sentinels (gmin <= 9e99, gmax and gpThreshMax
    >= -9e99), as those of [plot] always do. *)
Theorem smartMax_empty_histogram_neutral :
  forall (h : TH1) (l : TLegend) (p : TPad) (g : range) (error : bool),
    bins h = [] ->
    gmin g <= 9e99 -> -9e99 <= gmax g -> -9e99 <= gpThreshMax g ->
    smartMax h l p g error = g.
Proof.
  intros h l p g error Hb Hmin Hmax Hz.
  unfold smartMax, merge, scan. rewrite Hb. cbn [scan_bins init_locals
    l_min l_max l_pThreshMax].
  rewrite !std_max_absorb, std_min_absorb by assumption.
  destruct g; reflexivity.
Qed.

Lemma smartMax_empty_histogram_neutral_witness :
  bins (hist_of []) = []
  /\ smartMax (hist_of []) plot_legend pad1 plot_init true = plot_init.
Proof.
  split; [reflexivity |].
  apply (smartMax_empty_histogram_neutral (hist_of []) plot_legend pad1
           plot_init true eq_refl);
    cbn [plot_init gmin gmax gpThreshMax]; lra.
Defined.

(** X5.  Scanning the same histogram a second time changes nothing. *)
Theorem smartMax_idempotent :
  forall (h : TH1) (l : TLegend) (p : TPad) (g : range) (error : bool),
    smartMax h l p (smartMax h l p g error) error = smartMax h l p g error.
Proof.
  intros h l p g error. unfold smartMax, merge.
  cbn [gmin gmax gpThreshMax].
  destruct (std_max_bounds (gpThreshMax g) (l_pThreshMax (scan h l p error)))
    as (_ & Hz & _).
  destruct (std_max_bounds (gmax g) (l_max (scan h l p error)))
    as (_ & Hm & _).
  destruct (std_min_bounds (gmin g) (l_min (scan h l p error)))
    as (_ & Hn & _).
  rewrite (std_max_absorb _ _ Hz), (std_max_absorb _ _ Hm),
    (std_min_absorb _ _ Hn).
  reflexivity.
Qed.

(** X6.  Merged into accumulators that start at the sentinels of the loop,
    one histogram gives back exactly what the loop found for it. *)
Theorem smartMax_from_sentinels :
  forall (h : TH1) (l : TLegend) (p : TPad) (error : bool),
    smartMax h l p (mkRange 9e99 (-9e99) (-9e99)) error
    = mkRange (l_min (scan h l p error)) (l_max (scan h l p error))
              (l_pThreshMax (scan h l p error)).
Proof.
  intros h l p error. unfold smartMax, merge. cbn [gmin gmax gpThreshMax].
  rewrite (std_min_take _ _ (scan_min_le_sentinel h l p error)).
  rewrite (std_max_take _ _ (scan_max_ge_sentinel h l p error)).
  rewrite (std_max_take _ _ (scan_zone_ge_sentinel h l p error)).
  reflexivity.
Qed.

Lemma static_cast_int_le (x : R) (n : Z) :
  x <= IZR n -> (0 <= n)%Z -> (Std.static_cast_int x <= n)%Z.
Proof.
  intros Hx Hn. unfold Std.static_cast_int.
  destruct (Rle_dec 0 x) as [H | H].
  - destruct (base_Int_part x) as [Hlo _]. apply le_IZR. lra.
  - destruct (base_Int_part (- x)) as [_ Hhi].
    assert (Hlt : (-1 < Int_part (- x))%Z) by (apply lt_IZR; lra).
    lia.
Qed.

Lemma static_cast_int_monotone (x y : R) :
  x <= y -> (Std.static_cast_int x <= Std.static_cast_int y)%Z.
Proof.
  intros Hxy. unfold Std.static_cast_int.
  destruct (base_Int_part x) as [Hx1 Hx2].
  destruct (base_Int_part y) as [Hy1 Hy2].
  destruct (base_Int_part (- x)) as [Hnx1 Hnx2].
  destruct (base_Int_part (- y)) as [Hny1 Hny2].
  destruct (Rle_dec 0 x) as [H0x | H0x]; destruct (Rle_dec 0 y) as [H0y | H0y];
    try lra.
  - assert (H : (Int_part x - 1 < Int_part y)%Z)
      by (apply lt_IZR; rewrite minus_IZR; lra).
    lia.
  - assert (H1 : (-1 < Int_part (- x))%Z) by (apply lt_IZR; lra).
    assert (H2 : (-1 < Int_part y)%Z) by (apply lt_IZR; lra).
    lia.
  - assert (H : (Int_part (- y) - 1 < Int_part (- x))%Z)
      by (apply lt_IZR; rewrite minus_IZR; lra).
    lia.
Qed.

Lemma threshold_arg_monotone (n x y left right : R) :
  0 <= n -> left < 1 - right -> x <= y ->
  n * (x - left) / ((1 - right) - left) <= n * (y - left) / ((1 - right) - left).
Proof.
  intros Hn Hw Hxy.
  assert (Hd : 0 < / ((1 - right) - left)) by (apply Rinv_0_lt_compat; lra).
  unfold Rdiv. apply Rmult_le_compat_r; [lra | nra].
Qed.

(** X7.  When the legend's left edge lies inside the frame, between the
    left margin and 1 - right margin, the threshold is a bin count between
    0 and the number of bins. *)
Theorem threshold_within_bins :
  forall (h : TH1) (l : TLegend) (p : TPad),
    LeftMargin p < 1 - RightMargin p ->
    LeftMargin p <= X1 l <= 1 - RightMargin p ->
    (0 <= threshold h l p <= GetNbinsX h)%Z.
Proof.
  intros h l p Hw [Hlo Hhi]. unfold threshold, threshold_arg.
  pose proof (IZR_le _ _ (GetNbinsX_nonneg h)) as Hn.
  assert (Hd : 0 < / ((1 - RightMargin p) - LeftMargin p))
    by (apply Rinv_0_lt_compat; lra).
  split.
  - apply static_cast_int_ge; [lia |].
    unfold Rdiv. apply Rmult_le_pos; [nra | lra].
  - apply static_cast_int_le; [| apply GetNbinsX_nonneg].
    apply (Rmult_le_reg_r ((1 - RightMargin p) - LeftMargin p)); [lra |].
    unfold Rdiv. rewrite Rmult_assoc, Rinv_l by lra. nra.
Qed.

Lemma threshold_within_bins_witness :
  let h := hist_of [(1, 0); (7, 0); (2, 0); (4, 0)] in
  let p := mkTPad 0.1 0.1 0.1 0.1 false in
  LeftMargin p < 1 - RightMargin p
  /\ LeftMargin p <= X1 plot_legend <= 1 - RightMargin p
  /\ (0 <= threshold h plot_legend p <= GetNbinsX h)%Z.
Proof.
  intros h p.
  assert (Hw : LeftMargin p < 1 - RightMargin p)
    by (cbn [LeftMargin RightMargin p]; lra).
  assert (Hx : LeftMargin p <= X1 plot_legend <= 1 - RightMargin p)
    by (cbn [LeftMargin RightMargin p X1 plot_legend]; lra).
  split; [exact Hw |]. split; [exact Hx |].
  exact (threshold_within_bins h plot_legend p Hw Hx).
Defined.

(** X8.  In a frame of positive width, for two legends whose quotients
    both fit an [int]: the legend whose left edge is further right has the
    larger or equal threshold and never the larger zone maximum. *)
Theorem zone_max_antitone_in_legend_edge :
  forall (h : TH1) (l l' : TLegend) (p : TPad) (error : bool),
    LeftMargin p < 1 - RightMargin p ->
    Std.fits_int (threshold_arg h l p) ->
    Std.fits_int (threshold_arg h l' p) ->
    X1 l <= X1 l' ->
    (-2147483648 <= threshold h l p)%Z
    /\ (threshold h l p <= threshold h l' p)%Z
    /\ (threshold h l' p <= 2147483647)%Z
    /\ l_pThreshMax (scan h l' p error) <= l_pThreshMax (scan h l p error).
Proof.
  intros h l l' p error Hw Hfit Hfit' Hx.
  assert (Hthr : (threshold h l p <= threshold h l' p)%Z).
  { unfold threshold. apply static_cast_int_monotone.
    unfold threshold_arg. apply threshold_arg_monotone; try assumption.
    apply IZR_le. apply GetNbinsX_nonneg. }
  pose proof (static_cast_int_fits _ Hfit) as [Hlo _].
  pose proof (static_cast_int_fits _ Hfit') as [_ Hhi].
  fold (threshold h l p) in Hlo. fold (threshold h l' p) in Hhi.
  split; [exact Hlo |]. split; [exact Hthr |]. split; [exact Hhi |].
  unfold scan. apply scan_bins_zone_antitone; [exact Hthr | lra].
Qed.

Lemma zone_max_antitone_in_legend_edge_witness :
  let h := hist_of [(1, 0); (7, 0); (2, 0); (4, 0)] in
  let p := mkTPad 0.1 0.1 0.1 0.1 false in
  let l' := mkTLegend 0.7 0.56 0.89 0.88 in
  (LeftMargin p < 1 - RightMargin p
   /\ Std.fits_int (threshold_arg h plot_legend p)
   /\ Std.fits_int (threshold_arg h l' p)
   /\ X1 plot_legend <= X1 l')
  /\ l_pThreshMax (scan h l' p false)
     <= l_pThreshMax (scan h plot_legend p false).
Proof.
  intros h p l'.
  assert (Hw : LeftMargin p < 1 - RightMargin p)
    by (cbn [LeftMargin RightMargin p]; lra).
  assert (Hx : X1 plot_legend <= X1 l') by (cbn [X1 plot_legend l']; lra).
  assert (F1 : Std.fits_int (threshold_arg h plot_legend p)).
  { unfold Std.fits_int, threshold_arg, h, plot_legend, p, GetNbinsX, hist_of.
    cbn [bins List.length X1 LeftMargin RightMargin Z.of_nat Pos.of_succ_nat
         Pos.succ]. lra. }
  assert (F2 : Std.fits_int (threshold_arg h l' p)).
  { unfold Std.fits_int, threshold_arg, h, l', p, GetNbinsX, hist_of.
    cbn [bins List.length X1 LeftMargin RightMargin Z.of_nat Pos.of_succ_nat
         Pos.succ]. lra. }
  split; [exact (conj Hw (conj F1 (conj F2 Hx))) |].
  exact (proj2 (proj2 (proj2
           (zone_max_antitone_in_legend_edge h plot_legend l' p false
              Hw F1 F2 Hx)))).
Defined.

(** X9.  The legend and the pad bear on the zone maximum only: the minimum
    and the maximum that a call leaves are the same for any two legends
    and pads. *)
Theorem smartMax_min_max_ignore_legend :
  forall (h : TH1) (l l' : TLegend) (p p' : TPad) (g : range) (error : bool),
    gmin (smartMax h l p g error) = gmin (smartMax h l' p' g error)
    /\ gmax (smartMax h l p g error) = gmax (smartMax h l' p' g error).
Proof.
  intros h l l' p p' g error. unfold smartMax, merge, scan.
  cbn [gmin gmax].
  destruct (scan_bins_min_max_any_threshold error (threshold h l p)
              (threshold h l' p') (bins h) 1 1 init_locals init_locals
              eq_refl eq_refl) as [-> ->].
  split; reflexivity.
Qed.

Lemma std_max_monotone (a b a' b' : R) :
  a <= a' -> b <= b' -> Std.max a b <= Std.max a' b'.
Proof.
  intros Ha Hb.
  destruct (std_max_bounds a b) as (_ & _ & [-> | ->]);
    destruct (std_max_bounds a' b') as (? & ? & _); lra.
Qed.

Lemma zone_step_monotone (thr i : Z) (v v' q q' : R) :
  v <= v' -> q <= q' -> zone_step thr i v q <= zone_step thr i v' q'.
Proof.
  intros Hv Hq. unfold zone_step. destruct (thr <=? i)%Z; cbn [andb]; [| lra].
  destruct (gtb_spec v q); destruct (gtb_spec v' q'); lra.
Qed.

Lemma scan_bins_error_monotone thr bs :
  (forall b, In b bs -> 0 <= snd b) ->
  forall i s s',
    l_max s <= l_max s' -> l_pThreshMax s <= l_pThreshMax s' ->
    l_max (scan_bins false thr i bs s) <= l_max (scan_bins true thr i bs s')
    /\ l_pThreshMax (scan_bins false thr i bs s)
       <= l_pThreshMax (scan_bins true thr i bs s').
Proof.
  induction bs as [| b bs IH]; intros Hpos i s s' Hm Hz; cbn [scan_bins].
  - split; assumption.
  - assert (Hb : bin_value false b <= bin_value true b).
    { cbn [bin_value]. specialize (Hpos b (or_introl eq_refl)). lra. }
    apply IH.
    + intros b' Hin. apply Hpos. right. exact Hin.
    + rewrite !scan_bin_max. apply std_max_monotone; assumption.
    + rewrite !scan_bin_pThreshMax. apply zone_step_monotone; assumption.
Qed.

(** X10.  With errors that are not negative, scanning a histogram with its
    errors gives a maximum and a zone maximum at least as large as
    scanning it without. *)
Theorem scan_with_errors_is_larger :
  forall (h : TH1) (l : TLegend) (p : TPad),
    (forall b, In b (bins h) -> 0 <= snd b) ->
    l_max (scan h l p false) <= l_max (scan h l p true)
    /\ l_pThreshMax (scan h l p false) <= l_pThreshMax (scan h l p true).
Proof.
  intros h l p Hpos. unfold scan.
  apply scan_bins_error_monotone; [exact Hpos | lra | lra].
Qed.

Lemma scan_with_errors_is_larger_witness :
  let h := hist_of [(3, 1); (5, 0)] in
  (forall b, In b (bins h) -> 0 <= snd b)
  /\ l_max (scan h plot_legend pad1 false)
     <= l_max (scan h plot_legend pad1 true).
Proof.
  intros h.
  assert (H : forall b, In b (bins h) -> 0 <= snd b).
  { intros b [<- | [<- | []]]; cbn [snd]; lra. }
  split; [exact H |].
  exact (proj1 (scan_with_errors_is_larger h plot_legend pad1 H)).
Defined.

(** * Further properties of the vertical axis range *)

Lemma legFrac_scale (leg : TLegend) (pad : TPad) (x : R) :
  legFrac leg pad x = x * legFrac leg pad 1.
Proof. unfold legFrac, Rdiv. ring. Qed.

Lemma legFrac_1_pos (leg : TLegend) (pad : TPad) :
  BottomMargin pad < Y1 leg -> BottomMargin pad < 1 - TopMargin pad ->
  0 < legFrac leg pad 1.
Proof.
  intros Ha Hd. unfold legFrac, Rdiv. rewrite Rmult_1_l.
  apply Rmult_lt_0_compat; [lra | apply Rinv_0_lt_compat; lra].
Qed.

Lemma lin_range_above_zone (leg : TLegend) (pad : TPad) (g : range) :
  BottomMargin pad < Y1 leg -> BottomMargin pad < 1 - TopMargin pad ->
  0 <= gmax g -> gpThreshMax g <= gmax g ->
  1.3 * gmax g <= snd (y_range false leg pad g)
  /\ gpThreshMax g <= legFrac leg pad (snd (y_range false leg pad g)).
Proof.
  intros Ha Hd Hmax Hz.
  pose proof (legFrac_1_pos leg pad Ha Hd) as HF.
  unfold y_range. rewrite lin_legMin_eq.
  replace (1.2 * gmax g * (Y1 leg - BottomMargin pad)
           / (1 - TopMargin pad - BottomMargin pad))
    with (legFrac leg pad (1.2 * gmax g)) by reflexivity.
  rewrite (legFrac_scale leg pad (1.2 * gmax g)).
  set (F := legFrac leg pad 1) in *.
  replace 0.0 with 0 by lra. rewrite !Rminus_0_r.
  destruct (gtb_spec (gpThreshMax g) (1.2 * gmax g * F)) as [Hgt | Hle];
    cbn [snd]; rewrite legFrac_scale; fold F.
  - assert (Hm : 0 < gmax g) by nra.
    assert (Hl : 0 < 1.2 * gmax g * F) by nra.
    assert (Heq : gmax g * (gpThreshMax g / (1.2 * gmax g * F)) * 1.3 * F
                  = gpThreshMax g * (1.3 / 1.2)) by (field; lra).
    split.
    + assert (H1 : 1 < gpThreshMax g / (1.2 * gmax g * F))
        by (apply one_lt_div; assumption).
      nra.
    + rewrite Heq. lra.
  - split; [lra | nra].
Qed.

(** X11.  Linear scale, for accumulators with 0 <= max and zone maximum
    <= max (those of [plot]) and a legend whose lower edge is above the
    bottom of a frame of positive height: the upper bound set is at least
    1.3 * max, and the zone maximum is at most the level that the formula
    of the program gives to the legend's lower edge for that upper
    bound. *)
Theorem lin_range_clears_legend :
  forall (leg : TLegend) (pad : TPad) (g : range),
    BottomMargin pad < Y1 leg -> BottomMargin pad < 1 - TopMargin pad ->
    0 <= gmax g -> gpThreshMax g <= gmax g ->
    1.3 * gmax g <= snd (y_range false leg pad g)
    /\ gpThreshMax g <= legFrac leg pad (snd (y_range false leg pad g)).
Proof. exact lin_range_above_zone. Qed.

Lemma lin_range_clears_legend_witness :
  let g := mkRange 0 10 9 in
  (BottomMargin pad1 < Y1 plot_legend
   /\ BottomMargin pad1 < 1 - TopMargin pad1
   /\ 0 <= gmax g /\ gpThreshMax g <= gmax g)
  /\ 1.3 * gmax g <= snd (y_range false plot_legend pad1 g)
  /\ gpThreshMax g
     <= legFrac plot_legend pad1 (snd (y_range false plot_legend pad1 g)).
Proof.
  intros g.
  assert (H1 : BottomMargin pad1 < Y1 plot_legend)
    by (cbn [BottomMargin Y1 pad1 plot_pad setupPad plot_legend]; lra).
  assert (H2 : BottomMargin pad1 < 1 - TopMargin pad1)
    by (cbn [BottomMargin TopMargin pad1 plot_pad setupPad]; lra).
  assert (H3 : 0 <= gmax g) by (cbn [gmax g]; lra).
  assert (H4 : gpThreshMax g <= gmax g) by (cbn [gmax gpThreshMax g]; lra).
  split; [repeat split; assumption |].
  exact (lin_range_clears_legend plot_legend pad1 g H1 H2 H3 H4).
Defined.

Lemma ln_3_pos : 0 < ln 3.
Proof. rewrite <- ln_1. apply ln_increasing; lra. Qed.

Lemma ln_3_lt_ln_10 : 2 * ln 3 < ln 10.
Proof.
  replace (2 * ln 3) with (ln (3 * 3)) by (rewrite ln_mult by lra; lra).
  apply ln_increasing; lra.
Qed.

Lemma ln_upper (x s : R) :
  ln (10 * (Rpower x s * 0.2)) = ln 10 + s * ln x + ln 0.2.
Proof.
  assert (HP : 0 < Rpower x s) by (unfold Rpower; apply exp_pos).
  rewrite !ln_mult by nra. rewrite ln_Rpower. lra.
Qed.

Lemma ln_ratio (m : R) : 0 < m -> ln (m / 0.2) = ln m - ln 0.2.
Proof.
  intros Hm. unfold Rdiv. rewrite ln_mult, ln_Rinv by
    (try apply Rinv_0_lt_compat; lra). lra.
Qed.

(** X12.  Log scale, for a legend below which lies at least the fraction
    log10(3) of the frame (0.56 / 0.92 in the program), a maximum above
    0.2 and a positive zone maximum that is at most the maximum: the upper
    bound set is at least 10 * max, and log10 of the zone maximum is at
    most the decade that the formula of the program gives to the legend's
    lower edge for the range set. *)
Theorem log_range_clears_legend :
  forall (leg : TLegend) (pad : TPad) (g : range),
    Std.log10 3 <= legFrac leg pad 1 ->
    0.2 < gmax g -> 0 < gpThreshMax g <= gmax g ->
    let r := y_range true leg pad g in
    10 * gmax g <= snd r
    /\ Std.log10 (gpThreshMax g)
       <= legFrac leg pad (Std.log10 (snd r) - Std.log10 (fst r))
          + Std.log10 (fst r).
Proof.
  intros leg pad g HF Hmax [Hz0 Hz] r. unfold r.
  destruct (y_range_log_pos leg pad g) as [_ ->]; [lra | lra |].
  unfold log_legMin_real. cbn [fst snd].
  rewrite (legFrac_scale leg pad (Std.log10 (3 * gmax g) - Std.log10 0.2)).
  set (F := legFrac leg pad 1) in *.
  pose proof ln_10_pos as HK. pose proof ln_3_pos as H3.
  pose proof ln_3_lt_ln_10 as H310.
  assert (HiK : 0 < / ln 10) by (apply Rinv_0_lt_compat; lra).
  assert (HF3 : ln 3 <= ln 10 * F).
  { rewrite log10_ln in HF.
    apply (Rmult_le_compat_r (ln 10)) in HF; [| lra].
    rewrite Rmult_assoc, Rinv_l in HF by lra. lra. }
  assert (HFpos : 0 < F) by nra.
  assert (HL : 0 < ln (gmax g) - ln 0.2)
    by (pose proof (ln_increasing 0.2 (gmax g)); lra).
  assert (HZL : ln (gpThreshMax g) <= ln (gmax g)).
  { destruct Hz as [Hlt | ->]; [left; apply ln_increasing; lra | lra]. }
  assert (H3m : ln (3 * gmax g) = ln 3 + ln (gmax g))
    by (rewrite ln_mult by lra; reflexivity).
  set (M := ln (gmax g)) in *. set (c := ln 0.2) in *.
  set (Z := ln (gpThreshMax g)) in *.
  rewrite !(log10_ln (gpThreshMax g)), !(log10_ln 0.2),
    !(log10_ln (3 * gmax g)), H3m.
  fold Z c.
  match goal with
  | |- context [Std.gtb ?a ?b] => destruct (gtb_spec a b) as [Hgt | Hle]
  end.
  - (* rescale *)
    set (den := ((ln 3 + M) * / ln 10 - c * / ln 10) * F + c * / ln 10
                - c * / ln 10).
    assert (Hden : den = (ln 3 + M - c) * F * / ln 10) by (unfold den; ring).
    assert (Hdpos : 0 < den).
    { rewrite Hden. apply Rmult_lt_0_compat; [nra | assumption]. }
    assert (Hnum : den < Z * / ln 10 - c * / ln 10) by (unfold den; lra).
    set (S := (Z * / ln 10 - c * / ln 10) / den) in *.
    assert (HS1 : 1 < S) by (apply one_lt_div; assumption).
    assert (HSd : S * ((ln 3 + M - c) * F) = Z - c).
    { unfold S. rewrite Hden. field. split; [lra | nra]. }
    split.
    + unfold Std.pow.
      assert (Hb : 1 < gmax g / 0.2).
      { apply (Rmult_lt_reg_r 0.2); [lra |].
        unfold Rdiv. rewrite Rmult_assoc, Rinv_l by lra. lra. }
      pose proof (Rpower_lt (gmax g / 0.2) 1 S Hb HS1) as Hp.
      rewrite Rpower_1 in Hp by lra.
      apply (Rmult_lt_compat_r 0.2) in Hp; [| lra].
      unfold Rdiv in Hp at 1. rewrite Rmult_assoc, Rinv_l in Hp by lra. lra.
    + rewrite legFrac_scale. fold F. unfold Std.pow.
      rewrite log10_ln, ln_upper, ln_ratio by lra. fold M c.
      assert (Hkey : Z - c <= (ln 10 + S * (M - c)) * F).
      { assert (Hpos : 0 < ln 3 + M - c) by lra.
        apply (Rmult_le_reg_r (ln 3 + M - c)); [assumption |].
        replace ((ln 10 + S * (M - c)) * F * (ln 3 + M - c))
          with (ln 10 * F * (ln 3 + M - c)
                + (S * ((ln 3 + M - c) * F)) * (M - c)) by ring.
        rewrite HSd. nra. }
      replace (((ln 10 + S * (M - c) + c) * / ln 10 - c * / ln 10) * F
               + c * / ln 10)
        with (((ln 10 + S * (M - c)) * F + c) * / ln 10) by ring.
      apply Rmult_le_compat_r; [lra | lra].
  - split; [lra |].
    rewrite legFrac_scale. fold F.
    rewrite log10_ln. rewrite (ln_mult 10 (gmax g)) by lra. fold M.
    assert (Hstep : ((ln 3 + M) * / ln 10 - c * / ln 10) * F + c * / ln 10
                    <= ((ln 10 + M) * / ln 10 - c * / ln 10) * F + c * / ln 10).
    { apply Rplus_le_compat_r. apply Rmult_le_compat_r; [lra |].
      apply Rplus_le_compat_r. apply Rmult_le_compat_r; lra. }
    lra.
Qed.

Lemma log_range_clears_legend_witness :
  let g := mkRange 1 100 50 in
  let r := y_range true plot_legend pad1 g in
  (Std.log10 3 <= legFrac plot_legend pad1 1
   /\ 0.2 < gmax g /\ 0 < gpThreshMax g <= gmax g)
  /\ 10 * gmax g <= snd r
  /\ Std.log10 (gpThreshMax g)
     <= legFrac plot_legend pad1 (Std.log10 (snd r) - Std.log10 (fst r))
        + Std.log10 (fst r).
Proof.
  intros g r.
  assert (H1 : Std.log10 3 <= legFrac plot_legend pad1 1).
  { rewrite legFrac_plot, log10_ln.
    pose proof ln_10_pos as HK. pose proof ln_3_lt_ln_10 as H3.
    apply (Rmult_le_reg_r (ln 10)); [assumption |].
    rewrite Rmult_assoc, Rinv_l by lra. lra. }
  assert (H2 : 0.2 < gmax g) by (cbn [gmax g]; lra).
  assert (H3 : 0 < gpThreshMax g <= gmax g)
    by (cbn [gmax gpThreshMax g]; lra).
  split; [repeat split; try assumption; apply H3 |].
  exact (log_range_clears_legend plot_legend pad1 g H1 H2 H3).
Defined.




(** * Further properties of [retrieveHistogram] and of its callers *)

Section RetrieveMore.

Variable TFile_Open : string -> option TFile.
Variable TH1_Rebin : Z -> TH1 -> TH1.

(** X14.  [retrieveHistogram] changes nothing of the entry but its
    histogram pointer, and it ends in one of two ways: the pointer is null
    and exactly one line was printed, or the pointer is set and nothing
    was printed. *)
Theorem retrieveHistogram_outcomes :
  forall (hi : histInfo) (out : list string),
    let r := retrieveHistogram TFile_Open TH1_Rebin hi out in
    (legEntry (fst r) = legEntry hi /\ histFile (fst r) = histFile hi
     /\ histName (fst r) = histName hi /\ drawOptions (fst r) = drawOptions hi
     /\ color (fst r) = color hi /\ rebin (fst r) = rebin hi)
    /\ ((h (fst r) = None /\ exists msg, snd r = out ++ [msg])
        \/ (h (fst r) <> None /\ snd r = out)).
Proof.
  intros hi out r. unfold r, retrieveHistogram.
  destruct (TFile_Open (histFile hi)) as [f |].
  - destruct (f (histName hi)) as [t |]; cbn [fst snd set_h h legEntry histFile
      histName drawOptions color rebin].
    + split; [repeat split |]. right. split; [discriminate | reflexivity].
    + split; [repeat split |]. left. split; [reflexivity |].
      eexists. reflexivity.
  - cbn [fst snd set_h h legEntry histFile histName drawOptions color rebin].
    split; [repeat split |]. left. split; [reflexivity |].
    eexists. reflexivity.
Qed.

(** X15.  When the file opens and holds the histogram, and the rebin
    factor is not positive (the default is -1), the entry gets the bins as
    they are stored, drawn in the entry's colour with line width 3 and
    marker style 20. *)
Theorem retrieveHistogram_found_without_rebin :
  forall (hi : histInfo) (out : list string) (f : TFile) (t : TH1),
    TFile_Open (histFile hi) = Some f -> f (histName hi) = Some t ->
    (rebin hi <= 0)%Z ->
    exists t',
      h (fst (retrieveHistogram TFile_Open TH1_Rebin hi out)) = Some t'
      /\ bins t' = bins t
      /\ LineColor t' = color hi /\ LineWidth t' = 3%Z
      /\ MarkerColor t' = color hi /\ MarkerStyle t' = 20%Z.
Proof.
  intros hi out f t Hopen Hget Hrebin. unfold retrieveHistogram.
  rewrite Hopen, Hget.
  replace (0 <? rebin hi)%Z with false by (symmetry; apply Z.ltb_ge; lia).
  exists (set_style (color hi) t). cbn [fst set_h h]. repeat split.
Qed.

(** What a request finds is all that decides whether the pointer is null. *)
Lemma retrieve_request_null (name : string) (rb : Z) (e : histInfo)
  (out : list string) :
  let r := retrieveHistogram TFile_Open TH1_Rebin (set_request e name rb) out in
  is_null (fst r) = negb (available TFile_Open name e)
  /\ (available TFile_Open name e = true -> snd r = out).
Proof.
  unfold retrieveHistogram, available, is_null, set_request.
  cbn [histFile histName]. destruct (TFile_Open (histFile e)) as [f |].
  - destruct (f name) as [t |]; cbn [fst snd set_h h negb].
    + split; [reflexivity | intros _; reflexivity].
    + split; [reflexivity | discriminate].
  - cbn [fst snd set_h h negb]. split; [reflexivity | discriminate].
Qed.

Variable TH1_Add : TH1 -> option TH1 -> TH1.

Lemma bg_loop_spec (name : string) (rb : Z) (es : list histInfo)
  (out : list string) :
  match bg_loop TFile_Open TH1_Rebin TH1_Add name rb es out with
  | Returns (es', hbgSum, out') =>
      existsb is_null es' = negb (forallb (available TFile_Open name) es)
      /\ (hbgSum = None <-> es = [])
      /\ (forallb (available TFile_Open name) es = true -> out' = out)
  | Undefined => forallb (available TFile_Open name) es = false
  | OutOfFuel => False
  end.
Proof.
  induction es as [| e rest IH]; cbn [bg_loop].
  - cbn [existsb forallb negb]. repeat split; auto.
  - destruct (bg_loop TFile_Open TH1_Rebin TH1_Add name rb rest out)
      as [[[rest' hbgSum] out1] | |]; cbn [bind forallb].
    + destruct IH as (Hnull & Hsum & Hout).
      destruct (retrieve_request_null name rb e out1) as [Hn Ho].
      unfold is_null in Hn.
      destruct hbgSum as [s |].
      * cbn [existsb]. unfold is_null at 1.
        split; [| split].
        -- rewrite Hnull, negb_andb.
           destruct (h (fst (retrieveHistogram TFile_Open TH1_Rebin
                               (set_request e name rb) out1)));
             rewrite <- Hn; reflexivity.
        -- split; discriminate.
        -- intros Hall. apply andb_prop in Hall as [Ha Hr].
           rewrite (Ho Ha). apply Hout. exact Hr.
      * assert (Hrest : rest = []) by (apply Hsum; reflexivity).
        subst rest. cbn [forallb] in *.
        destruct (h (fst (retrieveHistogram TFile_Open TH1_Rebin
                            (set_request e name rb) out1))) as [t |] eqn:Hh.
        -- cbn [existsb]. unfold is_null. rewrite Hh. cbn [orb].
           assert (Ha : available TFile_Open name e = true)
             by (destruct (available TFile_Open name e);
                 [reflexivity | discriminate]).
           rewrite Ha. cbn [andb negb].
           split; [| split].
           ++ cbn [existsb] in Hnull. exact Hnull.
           ++ split; discriminate.
           ++ intros _. rewrite (Ho Ha). apply Hout. reflexivity.
        -- destruct (available TFile_Open name e); [discriminate | reflexivity].
    + rewrite IH. apply andb_false_r.
    + exact IH.
Qed.

Lemma sig_loop_spec (name : string) (rb : Z) (leg : TLegend) (pad : TPad)
  (es : list histInfo) : forall (g : range) (out : list string),
  match sig_loop TFile_Open TH1_Rebin name rb leg pad es g out with
  | Returns (g', out') =>
      forallb (available TFile_Open name) es = true /\ out' = out
      /\ gmin g' <= gmin g /\ gmax g <= gmax g'
      /\ (gpThreshMax g <= gmax g -> gpThreshMax g' <= gmax g')
  | Undefined => forallb (available TFile_Open name) es = false
  | OutOfFuel => False
  end.
Proof.
  induction es as [| e rest IH]; intros g out; cbn [sig_loop forallb].
  - repeat split; auto; lra.
  - destruct (retrieve_request_null name rb e out) as [Hn Ho].
    unfold is_null in Hn.
    destruct (h (fst (retrieveHistogram TFile_Open TH1_Rebin
                        (set_request e name rb) out))) as [t |].
    + assert (Ha : available TFile_Open name e = true)
        by (destruct (available TFile_Open name e);
            [reflexivity | discriminate]).
      rewrite Ha, (Ho Ha). cbn [andb].
      specialize (IH (smartMax t leg pad g false) out).
      destruct (sig_loop TFile_Open TH1_Rebin name rb leg pad rest
                  (smartMax t leg pad g false) out) as [[g' out'] | |];
        [| exact IH | exact IH].
      destruct IH as (Hall & Hout & Hmin & Hmax & Hz).
      destruct (merge_monotone g (scan t leg pad false)) as (M1 & M2 & _).
      fold (smartMax t leg pad g false) in M1, M2.
      split; [exact Hall |]. split; [exact Hout |].
      split; [lra |]. split; [lra |].
      intros Hg. apply Hz. unfold smartMax, merge. cbn [gmax gpThreshMax].
      pose proof (scan_zone_le_max t leg pad false) as Hs.
      apply std_max_monotone; assumption.
    + destruct (available TFile_Open name e); [discriminate | reflexivity].
Qed.

End RetrieveMore.

Lemma retrieveHistogram_found_without_rebin_witness :
  let t := hist_of [(1, 0); (2, 0)] in
  let f : TFile := fun _ => Some t in
  let open := fun _ : string => Some f in
  let hi := mkHistInfo "QCD"%string "qcd.root"%string "ttbar/HT"%string
              "hist"%string 2 (-1) None in
  (open (histFile hi) = Some f /\ f (histName hi) = Some t
   /\ (rebin hi <= 0)%Z)
  /\ exists t',
       h (fst (retrieveHistogram open (fun _ x => x) hi [])) = Some t'
       /\ bins t' = bins t
       /\ LineColor t' = color hi /\ LineWidth t' = 3%Z
       /\ MarkerColor t' = color hi /\ MarkerStyle t' = 20%Z.
Proof.
  intros t f open hi.
  assert (H1 : open (histFile hi) = Some f) by reflexivity.
  assert (H2 : f (histName hi) = Some t) by reflexivity.
  assert (H3 : (rebin hi <= 0)%Z) by (cbn [rebin hi]; lia).
  split; [repeat split; assumption |].
  exact (retrieveHistogram_found_without_rebin open (fun _ x => x) hi [] f t
           H1 H2 H3).
Defined.

Section PlotAccumulate.

Variable TFile_Open : string -> option TFile.
Variable TH1_Rebin : Z -> TH1 -> TH1.
Variable TH1_Add : TH1 -> option TH1 -> TH1.

Lemma plot_accumulate_spec (name : string) (rb : Z) (pad : TPad)
  (data_ : histInfo) (bgEntries_ sigEntries_ : list histInfo)
  (out : list string) :
  match plot_accumulate TFile_Open TH1_Rebin TH1_Add name rb pad data_
          bgEntries_ sigEntries_ out with
  | Returns (g, out') =>
      bgEntries_ <> []
      /\ forallb (available TFile_Open name)
           (data_ :: bgEntries_ ++ sigEntries_) = true
      /\ out' = out
      /\ gmin g <= 0 /\ 0 <= gmax g /\ gpThreshMax g <= gmax g
  | Undefined =>
      bgEntries_ = []
      \/ forallb (available TFile_Open name)
           (data_ :: bgEntries_ ++ sigEntries_) = false
  | OutOfFuel => False
  end.
Proof.
  unfold plot_accumulate. cbn [forallb]. rewrite forallb_app.
  pose proof (bg_loop_spec TFile_Open TH1_Rebin TH1_Add name rb bgEntries_ out)
    as Hbg.
  destruct (bg_loop TFile_Open TH1_Rebin TH1_Add name rb bgEntries_ out)
    as [[[bg' hbgSum] out1] | |]; cbn [bind].
  - destruct Hbg as (Hnull & Hsum & Hout).
    destruct (retrieve_request_null TFile_Open TH1_Rebin name rb data_ out1)
      as [Hn Ho].
    unfold is_null in Hn.
    destruct (h (fst (retrieveHistogram TFile_Open TH1_Rebin
                        (set_request data_ name rb) out1))) as [hd |].
    + assert (Ha : available TFile_Open name data_ = true)
        by (destruct (available TFile_Open name data_);
            [reflexivity | discriminate]).
      rewrite Ha, (Ho Ha). cbn [andb]. rewrite Hnull.
      destruct (forallb (available TFile_Open name) bgEntries_) eqn:Hall;
        cbn [negb andb]; [| right; reflexivity].
      destruct hbgSum as [hs |].
      * pose proof (sig_loop_spec TFile_Open TH1_Rebin name rb plot_legend pad
                      sigEntries_
                      (smartMax hs plot_legend pad
                         (smartMax hd plot_legend pad plot_init true) false)
                      out1) as Hsig.
        destruct (sig_loop TFile_Open TH1_Rebin name rb plot_legend pad
                    sigEntries_ _ out1) as [[g out'] | |];
          [| right; exact Hsig | exact Hsig].
        destruct Hsig as (Hs & Ho' & Hmin & Hmax & Hz).
        assert (H0 : gmin plot_init <= gmax plot_init
                     /\ gpThreshMax plot_init <= gmax plot_init)
          by (cbn [plot_init gmin gmax gpThreshMax]; lra).
        destruct H0 as [Ha0 Hb0].
        destruct (smartMax_keeps_order hd plot_legend pad plot_init true
                    Ha0 Hb0) as [Ha1 Hb1].
        destruct (smartMax_keeps_order hs plot_legend pad _ false Ha1 Hb1)
          as [_ Hb2].
        destruct (merge_monotone plot_init (scan hd plot_legend pad true))
          as (M1 & M2 & _).
        fold (smartMax hd plot_legend pad plot_init true) in M1, M2.
        destruct (merge_monotone (smartMax hd plot_legend pad plot_init true)
                    (scan hs plot_legend pad false)) as (N1 & N2 & _).
        fold (smartMax hs plot_legend pad
                (smartMax hd plot_legend pad plot_init true) false) in N1, N2.
        cbn [plot_init gmin gmax] in M1, M2.
        split; [intros Hnil; apply (proj2 Hsum) in Hnil; discriminate Hnil |].
        split; [exact Hs |]. split; [rewrite Ho'; apply Hout; reflexivity |].
        split; [lra |]. split; [lra |]. apply Hz. exact Hb2.
      * left. apply Hsum. reflexivity.
    + destruct (available TFile_Open name data_);
        [discriminate | right; reflexivity].
  - right. rewrite Hbg. apply andb_false_r.
  - exact Hbg.
Qed.

(** X16.  [plot] reaches the choice of the axis range exactly when there is
    at least one background entry and the histogram of the data entry, of
    every background entry and of every signal entry is retrieved; in
    every other case it uses a null pointer before (lines 193, 204, 212,
    219 or 231). *)
Theorem plot_accumulate_defined_iff :
  forall (name : string) (rb : Z) (pad : TPad) (data_ : histInfo)
         (bgEntries_ sigEntries_ : list histInfo) (out : list string),
    ((exists g out',
        plot_accumulate TFile_Open TH1_Rebin TH1_Add name rb pad data_
          bgEntries_ sigEntries_ out = Returns (g, out'))
     <-> (bgEntries_ <> []
          /\ forallb (available TFile_Open name)
               (data_ :: bgEntries_ ++ sigEntries_) = true))
    /\ (plot_accumulate TFile_Open TH1_Rebin TH1_Add name rb pad data_
          bgEntries_ sigEntries_ out = Undefined
        <-> (bgEntries_ = []
             \/ forallb (available TFile_Open name)
                  (data_ :: bgEntries_ ++ sigEntries_) = false)).
Proof.
  intros name rb pad data_ bgEntries_ sigEntries_ out.
  pose proof (plot_accumulate_spec name rb pad data_ bgEntries_ sigEntries_ out)
    as H.
  destruct (plot_accumulate TFile_Open TH1_Rebin TH1_Add name rb pad data_
              bgEntries_ sigEntries_ out) as [[g out'] | |].
  - destruct H as (Hne & Hall & _). split; split.
    + intros _. split; assumption.
    + intros _. exists g, out'. reflexivity.
    + discriminate.
    + intros [Hnil | Hf]; [contradiction | congruence].
  - split; split.
    + intros (g & out' & Heq). discriminate.
    + intros [Hne Hall]. destruct H as [Hnil | Hf]; [contradiction | congruence].
    + intros _. exact H.
    + intros _. reflexivity.
  - contradiction.
Qed.

(** X17.  When [plot] reaches the choice of the axis range, none of the
    messages of [retrieveHistogram] has been printed, min is at most 0,
    max is at least 0 and the zone maximum is at most max. *)
Theorem plot_accumulate_result :
  forall (name : string) (rb : Z) (pad : TPad) (data_ : histInfo)
         (bgEntries_ sigEntries_ : list histInfo) (out : list string)
         (g : range) (out' : list string),
    plot_accumulate TFile_Open TH1_Rebin TH1_Add name rb pad data_
      bgEntries_ sigEntries_ out = Returns (g, out') ->
    out' = out /\ gmin g <= 0 /\ 0 <= gmax g /\ gpThreshMax g <= gmax g.
Proof.
  intros name rb pad data_ bgEntries_ sigEntries_ out g out' Heq.
  pose proof (plot_accumulate_spec name rb pad data_ bgEntries_ sigEntries_ out)
    as H.
  rewrite Heq in H. destruct H as (_ & _ & H). exact H.
Qed.

End PlotAccumulate.

(** One file system in which every file opens and holds, under every name,
    a histogram with the single bin 1; one data entry and one background
    entry. *)
Lemma plot_accumulate_defined_iff_witness :
  let open := fun _ : string => Some (fun _ : string => Some (hist_of [(1, 0)])) in
  let data_ := mkHistInfo "Data"%string "data.root"%string ""%string
                 "PEX0"%string 1 (-1) None in
  let bg := [mkHistInfo "QCD"%string "qcd.root"%string ""%string
               "hist"%string 2 (-1) None] in
  (bg <> [] /\ forallb (available open "ttbar/HT"%string) (data_ :: bg ++ [])
               = true)
  /\ exists g out',
       plot_accumulate open (fun _ t => t) (fun s _ => s) "ttbar/HT"%string 5
         pad1 data_ bg [] [] = Returns (g, out').
Proof.
  intros open data_ bg.
  assert (H : bg <> [] /\ forallb (available open "ttbar/HT"%string)
                            (data_ :: bg ++ []) = true)
    by (split; [discriminate | reflexivity]).
  split; [exact H |].
  exact (proj2 (proj1 (plot_accumulate_defined_iff open (fun _ t => t)
                         (fun s _ => s) "ttbar/HT"%string 5 pad1 data_ bg [] []))
           H).
Defined.

Lemma plot_accumulate_result_witness :
  let open := fun _ : string => Some (fun _ : string => Some (hist_of [(1, 0)])) in
  let data_ := mkHistInfo "Data"%string "data.root"%string ""%string
                 "PEX0"%string 1 (-1) None in
  let bg := [mkHistInfo "QCD"%string "qcd.root"%string ""%string
               "hist"%string 2 (-1) None] in
  let g := smartMax (set_style 2 (hist_of [(1, 0)])) plot_legend pad1
             (smartMax (set_style 1 (hist_of [(1, 0)])) plot_legend pad1
                plot_init true) false in
  plot_accumulate open (fun _ t => t) (fun s _ => s) "ttbar/HT"%string (-1)
    pad1 data_ bg [] [] = Returns (g, [])
  /\ gmin g <= 0 /\ 0 <= gmax g /\ gpThreshMax g <= gmax g.
Proof.
  intros open data_ bg g.
  assert (H : plot_accumulate open (fun _ t => t) (fun s _ => s)
                "ttbar/HT"%string (-1) pad1 data_ bg [] [] = Returns (g, []))
    by reflexivity.
  split; [exact H |].
  exact (proj2 (plot_accumulate_result open (fun _ t => t) (fun s _ => s)
                  "ttbar/HT"%string (-1) pad1 data_ bg [] [] g [] H)).
Defined.

(** A bin at or past the threshold is at most the zone maximum. *)
Lemma scan_bins_zone_covers error thr bs : forall i s k b,
  nth_error bs k = Some b -> (thr <= i + Z.of_nat k)%Z ->
  bin_value error b <= l_pThreshMax (scan_bins error thr i bs s).
Proof.
  induction bs as [| b0 bs IH]; intros i s k b Hnth Hthr.
  - destruct k; discriminate Hnth.
  - cbn [scan_bins]. destruct k as [| k]; cbn [nth_error] in Hnth.
    + injection Hnth as ->.
      pose proof (scan_bins_zone_ge error thr bs (i + 1)%Z
                    (scan_bin error thr i b s)) as Hge.
      rewrite scan_bin_pThreshMax in Hge at 1. unfold zone_step in Hge.
      replace (thr <=? i)%Z with true in Hge
        by (symmetry; apply Z.leb_le; lia).
      cbn [andb] in Hge.
      destruct (gtb_spec (bin_value error b) (l_pThreshMax s)); lra.
    + apply (IH (i + 1)%Z _ k b Hnth). lia.
Qed.

(** Every bin in the zone of one of the calls is at most the zone maximum
    that the calls leave. *)
Lemma smartMax_calls_zone_covers cs : forall g c k b,
  In c cs ->
  nth_error (bins (c_hist c)) k = Some b ->
  (threshold (c_hist c) (c_leg c) (c_pad c) <= Z.of_nat k + 1)%Z ->
  bin_value (c_error c) b <= gpThreshMax (smartMax_calls g cs).
Proof.
  induction cs as [| c0 cs IH]; intros g c k b Hin Hnth Hthr; [destruct Hin |].
  destruct Hin as [-> | Hin].
  - unfold smartMax_calls. cbn [fold_left]. fold (smartMax_calls (smartMax_call g c) cs).
    destruct (smartMax_calls_monotone cs (smartMax_call g c)) as (_ & _ & Hz).
    assert (Hc : bin_value (c_error c) b <= gpThreshMax (smartMax_call g c)).
    { unfold smartMax_call, smartMax, merge. cbn [gpThreshMax].
      destruct (std_max_bounds (gpThreshMax g)
                  (l_pThreshMax (scan (c_hist c) (c_leg c) (c_pad c) (c_error c))))
        as (_ & Hb & _).
      pose proof (scan_bins_zone_covers (c_error c)
                    (threshold (c_hist c) (c_leg c) (c_pad c))
                    (bins (c_hist c)) 1 init_locals k b Hnth) as Hcov.
      unfold scan in *. specialize (Hcov ltac:(lia)). lra. }
    lra.
  - unfold smartMax_calls. cbn [fold_left].
    apply (IH (smartMax_call g c0) c k b Hin Hnth Hthr).
Qed.

Section PlotTrace.

Variable TFile_Open : string -> option TFile.
Variable TH1_Rebin : Z -> TH1 -> TH1.
Variable TH1_Add : TH1 -> option TH1 -> TH1.

(** The pointer an entry gets does not depend on the text printed before. *)
Lemma retrieve_fst_any_out (hi : histInfo) (out1 out2 : list string) :
  fst (retrieveHistogram TFile_Open TH1_Rebin hi out1)
  = fst (retrieveHistogram TFile_Open TH1_Rebin hi out2).
Proof.
  unfold retrieveHistogram. destruct (TFile_Open (histFile hi)) as [f |];
    [destruct (f (histName hi)) |]; reflexivity.
Qed.

Lemma sig_loop_trace (name : string) (rb : Z) (leg : TLegend) (pad : TPad)
  (out0 : list string) (es : list histInfo) :
  forall (g : range) (out : list string) (g' : range) (out' : list string),
    sig_loop TFile_Open TH1_Rebin name rb leg pad es g out = Returns (g', out') ->
    exists ts,
      Forall2 (fun e t =>
                 h (fst (retrieveHistogram TFile_Open TH1_Rebin
                           (set_request e name rb) out0)) = Some t) es ts
      /\ g' = smartMax_calls g (map (fun t => mkCall t leg pad false) ts).
Proof.
  induction es as [| e rest IH]; intros g out g' out' Heq; cbn [sig_loop] in Heq.
  - injection Heq as <- <-. exists []. split; [constructor | reflexivity].
  - destruct (h (fst (retrieveHistogram TFile_Open TH1_Rebin
                        (set_request e name rb) out))) as [t |] eqn:Ht;
      [| discriminate Heq].
    destruct (IH _ _ _ _ Heq) as (ts & Hts & Hg).
    exists (t :: ts). split.
    + constructor; [| exact Hts].
      rewrite (retrieve_fst_any_out _ out0 out). exact Ht.
    + rewrite Hg. reflexivity.
Qed.

(** What [plot] has in its accumulators is what its calls of [smartMax]
    leave, on the data histogram, the sum of the backgrounds and the
    signals as retrieved. *)
Lemma plot_accumulate_trace (name : string) (rb : Z) (pad : TPad)
  (data_ : histInfo) (bgEntries_ sigEntries_ : list histInfo)
  (out : list string) (g : range) (out' : list string) :
  plot_accumulate TFile_Open TH1_Rebin TH1_Add name rb pad data_
    bgEntries_ sigEntries_ out = Returns (g, out') ->
  exists hd hs sigs,
    h (fst (retrieveHistogram TFile_Open TH1_Rebin
              (set_request data_ name rb) out)) = Some hd
    /\ (exists bg' out1,
          bg_loop TFile_Open TH1_Rebin TH1_Add name rb bgEntries_ out
          = Returns (bg', Some hs, out1))
    /\ Forall2 (fun e t =>
                  h (fst (retrieveHistogram TFile_Open TH1_Rebin
                            (set_request e name rb) out)) = Some t)
         sigEntries_ sigs
    /\ g = plot_range hd hs sigs plot_legend pad.
Proof.
  unfold plot_accumulate. intros Heq.
  destruct (bg_loop TFile_Open TH1_Rebin TH1_Add name rb bgEntries_ out)
    as [[[bg' hbgSum] out1] | |]; cbn [bind] in Heq; try discriminate Heq.
  destruct (h (fst (retrieveHistogram TFile_Open TH1_Rebin
                      (set_request data_ name rb) out1))) as [hd |] eqn:Hd;
    [| discriminate Heq].
  destruct (existsb is_null bg'); [discriminate Heq |].
  destruct hbgSum as [hs |]; [| discriminate Heq].
  destruct (sig_loop_trace name rb plot_legend pad out sigEntries_ _ _ _ _ Heq)
    as (sigs & Hsigs & Hg).
  exists hd, hs, sigs. split; [| split; [| split]].
  - rewrite (retrieve_fst_any_out _ out out1). exact Hd.
  - exists bg', out1. reflexivity.
  - exact Hsigs.
  - rewrite Hg. reflexivity.
Qed.

(** X20.  From the files to the axis, on linear scale.  Whenever [plot]
    reaches the choice of the range, its accumulators are those of its
    calls of [smartMax] on the data histogram (with errors), the sum of
    the backgrounds and the signals as retrieved; the range it sets with
    its own legend and margins runs from 0 to at least 1.3 * max; and every
    bin of a scanned histogram whose number is at or past the threshold of
    its call, for a quotient that fits an [int], has a value of at most
    0.56 / 0.92 of the upper bound, the level of the legend's lower
    edge. *)
Theorem plot_linear_range_clears_legend :
  forall (name : string) (rb : Z) (pad : TPad) (data_ : histInfo)
         (bgEntries_ sigEntries_ : list histInfo) (out : list string)
         (g : range) (out' : list string),
    plot_accumulate TFile_Open TH1_Rebin TH1_Add name rb pad data_
      bgEntries_ sigEntries_ out = Returns (g, out') ->
    exists hd hs sigs,
      h (fst (retrieveHistogram TFile_Open TH1_Rebin
                (set_request data_ name rb) out)) = Some hd
      /\ (exists bg' out1,
            bg_loop TFile_Open TH1_Rebin TH1_Add name rb bgEntries_ out
            = Returns (bg', Some hs, out1))
      /\ Forall2 (fun e t =>
                    h (fst (retrieveHistogram TFile_Open TH1_Rebin
                              (set_request e name rb) out)) = Some t)
           sigEntries_ sigs
      /\ g = plot_range hd hs sigs plot_legend pad
      /\ fst (y_range false plot_legend pad1 g) = 0
      /\ 1.3 * gmax g <= snd (y_range false plot_legend pad1 g)
      /\ forall c k b,
           In c (plot_calls hd hs sigs plot_legend pad) ->
           Std.fits_int (threshold_arg (c_hist c) (c_leg c) (c_pad c)) ->
           nth_error (bins (c_hist c)) k = Some b ->
           (threshold (c_hist c) (c_leg c) (c_pad c) <= Z.of_nat k + 1)%Z ->
           bin_value (c_error c) b
           <= snd (y_range false plot_legend pad1 g) * (0.56 / 0.92).
Proof.
  intros name rb pad data_ bgEntries_ sigEntries_ out g out' Heq.
  destruct (plot_accumulate_trace name rb pad data_ bgEntries_ sigEntries_
              out g out' Heq) as (hd & hs & sigs & Hd & Hbg & Hsigs & Hg).
  exists hd, hs, sigs.
  split; [exact Hd |]. split; [exact Hbg |]. split; [exact Hsigs |].
  split; [exact Hg |].
  pose proof (plot_accumulate_spec TFile_Open TH1_Rebin TH1_Add name rb pad
                data_ bgEntries_ sigEntries_ out) as H.
  rewrite Heq in H. destruct H as (_ & _ & _ & _ & Hmax & Hz).
  assert (H1 : BottomMargin pad1 < Y1 plot_legend)
    by (cbn [BottomMargin Y1 pad1 plot_pad setupPad plot_legend]; lra).
  assert (H2 : BottomMargin pad1 < 1 - TopMargin pad1)
    by (cbn [BottomMargin TopMargin pad1 plot_pad setupPad]; lra).
  destruct (lin_range_above_zone plot_legend pad1 g H1 H2 Hmax Hz) as [Ha Hb].
  split; [unfold y_range; cbn [fst]; lra |]. split; [exact Ha |].
  intros c k b Hin _ Hnth Hthr.
  rewrite legFrac_plot in Hb.
  assert (Hc : bin_value (c_error c) b <= gpThreshMax g).
  { rewrite Hg. unfold plot_range.
    apply (smartMax_calls_zone_covers _ plot_init c k b Hin Hnth Hthr). }
  lra.
Qed.

End PlotTrace.

Lemma plot_linear_range_clears_legend_witness :
  let open := fun _ : string => Some (fun _ : string => Some (hist_of [(1, 0)])) in
  let data_ := mkHistInfo "Data"%string "data.root"%string ""%string
                 "PEX0"%string 1 (-1) None in
  let bg := [mkHistInfo "QCD"%string "qcd.root"%string ""%string
               "hist"%string 2 (-1) None] in
  let g := smartMax (set_style 2 (hist_of [(1, 0)])) plot_legend pad1
             (smartMax (set_style 1 (hist_of [(1, 0)])) plot_legend pad1
                plot_init true) false in
  plot_accumulate open (fun _ t => t) (fun s _ => s) "ttbar/HT"%string (-1)
    pad1 data_ bg [] [] = Returns (g, [])
  /\ exists hd hs sigs,
       g = plot_range hd hs sigs plot_legend pad1
       /\ 1.3 * gmax g <= snd (y_range false plot_legend pad1 g)
       /\ forall c k b,
            In c (plot_calls hd hs sigs plot_legend pad1) ->
            Std.fits_int (threshold_arg (c_hist c) (c_leg c) (c_pad c)) ->
            nth_error (bins (c_hist c)) k = Some b ->
            (threshold (c_hist c) (c_leg c) (c_pad c) <= Z.of_nat k + 1)%Z ->
            bin_value (c_error c) b
            <= snd (y_range false plot_legend pad1 g) * (0.56 / 0.92).
Proof.
  intros open data_ bg g.
  assert (H : plot_accumulate open (fun _ t => t) (fun s _ => s)
                "ttbar/HT"%string (-1) pad1 data_ bg [] [] = Returns (g, []))
    by reflexivity.
  split; [exact H |].
  destruct (plot_linear_range_clears_legend open (fun _ t => t)
              (fun s _ => s) "ttbar/HT"%string (-1) pad1 data_ bg [] [] g [] H)
    as (hd & hs & sigs & _ & _ & _ & Hg & _ & Hu & Hall).
  exists hd, hs, sigs. split; [exact Hg |]. split; [exact Hu | exact Hall].
Defined.

(** * Further properties of the name of the image file *)

Open Scope string_scope.

Lemma replace_slashes_clean (s : string) : has_slash (replace_slashes s) = false.
Proof.
  induction s as [| x s IH]; [reflexivity |].
  cbn [replace_slashes has_slash]. rewrite IH, orb_false_r.
  destruct (Ascii.eqb_spec x "/") as [-> | Hx]; [reflexivity |].
  apply Ascii.eqb_neq. exact Hx.
Qed.

Lemma replace_slashes_length (s : string) :
  String.length (replace_slashes s) = String.length s.
Proof.
  induction s as [| x s IH]; [reflexivity |].
  cbn [replace_slashes String.length]. rewrite IH. reflexivity.
Qed.

(** The two cases of the loop, by whether the name has a slash. *)
Lemma output_name_cases (name : string) :
  (N.of_nat (String.length name) < npos)%N ->
  output_name name
  = if has_slash name then Returns (replace_slashes name ++ ".png")
    else Undefined.
Proof.
  intros Hsize. destruct (has_slash name) eqn:Hslash.
  - destruct (first_slash name Hslash) as (mid & rest & -> & Hmid).
    unfold output_name, find. rewrite find_from_first by assumption.
    rewrite length_append in *. cbn [String.length] in *.
    rewrite replace_loop_from_slash by (try assumption; lia).
    rewrite replace_slashes_first by assumption. reflexivity.
  - unfold output_name, find. rewrite find_from_none by assumption.
    cbn [replace_loop]. rewrite set_at_past_end by lia. reflexivity.
Qed.

(** X18.  For a name of a length a [std::string] can have, the loop ends
    within the steps allowed, and a name that is printed has no slash and
    is four characters longer than the histogram name. *)
Theorem output_name_is_flat :
  forall (histName : string),
    (N.of_nat (String.length histName) < npos)%N ->
    output_name histName <> OutOfFuel
    /\ forall o, output_name histName = Returns o ->
         has_slash o = false
         /\ String.length o = (String.length histName + 4)%nat.
Proof.
  intros name Hsize. rewrite (output_name_cases name Hsize).
  destruct (has_slash name); split; try discriminate.
  intros o Ho. injection Ho as <-. split.
  - rewrite has_slash_append, replace_slashes_clean. reflexivity.
  - rewrite length_append, replace_slashes_length. reflexivity.
Qed.

Lemma output_name_is_flat_witness :
  (N.of_nat (String.length "QCDb/fakerateHT2") < npos)%N
  /\ output_name "QCDb/fakerateHT2" = Returns "QCDb_fakerateHT2.png"
  /\ has_slash "QCDb_fakerateHT2.png" = false
  /\ String.length "QCDb_fakerateHT2.png"
     = (String.length "QCDb/fakerateHT2" + 4)%nat.
Proof.
  assert (H : (N.of_nat (String.length "QCDb/fakerateHT2") < npos)%N)
    by reflexivity.
  split; [exact H |]. split; [reflexivity |].
  exact (proj2 (output_name_is_flat "QCDb/fakerateHT2" H)
           "QCDb_fakerateHT2.png" eq_refl).
Defined.

Lemma distinct_NoDup (l : list string) : distinct l = true -> NoDup l.
Proof.
  induction l as [| x l IH]; cbn [distinct]; intros H; [constructor |].
  apply andb_prop in H as [Hx Hl]. constructor; [| apply IH; exact Hl].
  intros Hin. apply negb_true_iff in Hx.
  assert (Hex : existsb (String.eqb x) l = true).
  { apply existsb_exists. exists x. split; [exact Hin | apply String.eqb_refl]. }
  congruence.
Qed.

(** X19.  Every one of the 77 calls of [plot] that [main] makes passes a
    name with a slash, so that each has a defined image name, and no two
    of the calls print to the same file. *)
Theorem main_output_names_defined_and_distinct :
  List.length main_histNames = 77%nat
  /\ Forall (fun n => output_name n = Returns (replace_slashes n ++ ".png"))
       main_histNames
  /\ NoDup (map (fun n => replace_slashes n ++ ".png") main_histNames).
Proof.
  split; [reflexivity |]. split.
  - apply Forall_forall. intros n Hin.
    assert (Hb : (N.of_nat (String.length n) <? npos)%N && has_slash n = true).
    { revert n Hin. apply forallb_forall. vm_compute. reflexivity. }
    apply andb_prop in Hb as [Hsize Hslash].
    apply N.ltb_lt in Hsize.
    rewrite (output_name_cases n Hsize), Hslash. reflexivity.
  - apply distinct_NoDup. vm_compute. reflexivity.
Qed.

Close Scope string_scope.
